(** * ckan-dataset-downloader: a shallow embedding of the resolver and the
    fetcher of [ckan-dataset-downloader.py], and the properties of its
    specification.

    The script talks to a CKAN catalogue through a [requests.Session].
    The network is an oracle: the n-th [session.get] of a run either
    returns a response or raises.  Every function of the script is a
    computation that, given the number of requests already made, yields a
    result (a value or a raised exception) and the ordered list of the
    effects it performed (requests, [resp.json()] calls, sleeps, log
    records, file writes). *)

From Stdlib Require Import ZArith List String Ascii Bool Lia DecimalString.
Import ListNotations.
Set Warnings "-register-all".
Local Open Scope string_scope.
Local Open Scope Z_scope.

(** ** Python values *)

(** The values [resp.json()] can produce.  JSON numbers with a fraction or
    an exponent (Python floats) are not part of the model. *)
Inductive pyval : Type :=
| PNone
| PBool (b : bool)
| PInt (n : Z)
| PStr (s : string)
| PList (l : list pyval)
| PDict (d : list (string * pyval)).

(** Exceptions, by class.  [RuntimeError] carries the message the script
    builds; [KeyError] the missing key.  [RequestException] stands for the
    transport errors of [requests] (connection, timeout, TLS...), named by
    [detail].  [KeyboardInterrupt] and [SystemExit] derive from
    [BaseException] only. *)
Inductive exn : Type :=
| RuntimeError (msg : string)
| KeyError (key : string)
| TypeError
| ValueError
| AssertionError
| JSONDecodeError
| OSError (detail : string)
| RequestException (detail : string)
| KeyboardInterrupt
| SystemExit.

(** [except Exception] catches everything but the two classes that derive
    from [BaseException] directly. *)
Definition derives_from_Exception (e : exn) : bool :=
  match e with
  | KeyboardInterrupt | SystemExit => false
  | _ => true
  end.

Inductive result (A : Type) : Type :=
| Ok (a : A)
| Raise (e : exn).
Arguments Ok {A} a.
Arguments Raise {A} e.

(** ** Module constants *)

Definition COCT_CKAN_URL : string := "https://cctdata.co.za/data-catalogue".
Definition PACKAGE_LOOKUP_PATH : string := "api/action/package_show".
Definition NAME_FIELD : string := "name".
Definition URL_FIELD : string := "url".
Definition ID_FIELD : string := "id".
Definition RESOURCES_FIELD : string := "resources".

Definition RETRY_DELAY_FACTOR : Z := 10.
Definition RETRIES : Z := 3.

(** ** Subscripting, iteration, hashing *)

Fixpoint assoc {A : Type} (k : string) (d : list (string * A)) : option A :=
  match d with
  | [] => None
  | (k', v) :: d' => if String.eqb k' k then Some v else assoc k d'
  end.

(** [v[k]] for a string [k]: a dict looks the key up and raises [KeyError]
    when it is missing; lists and strings want integer indices, the other
    values are not subscriptable: [TypeError]. *)
Definition py_getitem (v : pyval) (k : string) : result pyval :=
  match v with
  | PDict d =>
      match assoc k d with
      | Some x => Ok x
      | None => Raise (KeyError k)
      end
  | _ => Raise TypeError
  end.

Fixpoint chars (s : string) : list pyval :=
  match s with
  | EmptyString => []
  | String c s' => PStr (String c EmptyString) :: chars s'
  end.

(** [for x in v]: a list yields its elements, a dict its keys, a string
    its characters; the other values are not iterable. *)
Definition py_iter (v : pyval) : result (list pyval) :=
  match v with
  | PList l => Ok l
  | PDict d => Ok (map (fun kv => PStr (fst kv)) d)
  | PStr s => Ok (chars s)
  | _ => Raise TypeError
  end.

Definition hashable (v : pyval) : bool :=
  match v with
  | PList _ | PDict _ => false
  | _ => true
  end.

(** Equality of dict keys: [True == 1] and [False == 0] in Python, and
    they hash alike. *)
Definition py_key_eqb (a b : pyval) : bool :=
  match a, b with
  | PNone, PNone => true
  | PStr s, PStr t => String.eqb s t
  | PBool x, PBool y => Bool.eqb x y
  | PInt x, PInt y => Z.eqb x y
  | PBool x, PInt y => Z.eqb (Z.b2z x) y
  | PInt x, PBool y => Z.eqb x (Z.b2z y)
  | _, _ => false
  end.

(** A Python dict built by the script: keys in insertion order, no two
    equal keys. *)
Definition pydict : Type := list (pyval * pyval).

(** [d[k] = v]: an existing equal key keeps its place (and the key object
    first inserted) and takes the new value; a new key goes last. *)
Fixpoint dict_set (k v : pyval) (d : pydict) : pydict :=
  match d with
  | [] => [(k, v)]
  | (k', v') :: d' =>
      if py_key_eqb k' k then (k', v) :: d'
      else (k', v') :: dict_set k v d'
  end.

Fixpoint dict_get (k : pyval) (d : pydict) : option pyval :=
  match d with
  | [] => None
  | (k', v') :: d' => if py_key_eqb k' k then Some v' else dict_get k d'
  end.

Definition dict_keys (d : pydict) : list pyval := map fst d.
Definition dict_items (d : pydict) : list (pyval * pyval) := d.

(** ** Requests, responses, effects *)

(** The arguments of one [session.get(url, params=..., headers=...)]:
    [get_params] is [None] when the call passes no [params], and a header
    value is [None] when the script passes [None]. *)
Record GetCall : Type := {
  get_url : pyval;
  get_params : option (list (string * string));
  get_headers : list (string * option string)
}.

(** A [requests.Session], as far as the script depends on it: its
    session-level headers. *)
Record Session : Type := {
  session_headers : list (string * option string)
}.

(** A [requests.Response]: [json] is what calling [resp.json()] does. *)
Record Response : Type := {
  status_code : Z;
  json : result pyval;
  text : string;
  content : string
}.

Inductive loglevel : Type := DEBUG | INFO | WARNING.

Inductive event : Type :=
| EvGet (s : Session) (c : GetCall)
| EvJson
| EvSleep (seconds : Z)
| EvLog (level : loglevel) (msg : string)
| EvWrite (dir : string) (filename : string) (data : string).

Definition gets (t : list event) : list (Session * GetCall) :=
  flat_map (fun e => match e with EvGet s c => [(s, c)] | _ => [] end) t.

Definition sleeps (t : list event) : list Z :=
  flat_map (fun e => match e with EvSleep d => [d] | _ => [] end) t.

Definition json_calls (t : list event) : nat :=
  List.length (filter (fun e => match e with EvJson => true | _ => false end) t).

Definition writes (t : list event) : list (string * string) :=
  flat_map (fun e => match e with EvWrite _ p d => [(p, d)] | _ => [] end) t.

(** ** The effect monad *)

(** A computation: from the number of requests made before it starts to
    its result and the effects it performed, in order. *)
Definition M (A : Type) : Type := nat -> result A * list event.

Definition ret {A} (a : A) : M A := fun _ => (Ok a, []).
Definition raise {A} (e : exn) : M A := fun _ => (Raise e, []).
Definition emit (e : event) : M unit := fun _ => (Ok tt, [e]).

Definition bind {A B} (m : M A) (f : A -> M B) : M B :=
  fun n =>
    match m n with
    | (Ok a, t) =>
        match f a (n + List.length (gets t))%nat with
        | (r, t') => (r, (t ++ t')%list)
        end
    | (Raise e, t) => (Raise e, t)
    end.

(** [try: m  except Exception as e: ...] seen from outside: the result of
    [m] as a value when it returned or raised an [Exception]; anything
    else keeps propagating. *)
Definition try_except {A} (m : M A) : M (result A) :=
  fun n =>
    match m n with
    | (Ok a, t) => (Ok (Ok a), t)
    | (Raise e, t) =>
        if derives_from_Exception e then (Ok (Raise e), t) else (Raise e, t)
    end.

Definition lift {A} (r : result A) : M A := fun _ => (r, []).

Declare Scope py_scope.
Delimit Scope py_scope with py.
Notation "x <- m ;; k" := (bind m (fun x => k))
  (at level 61, m at next level, right associativity) : py_scope.
Notation "m ;; k" := (bind m (fun _ => k))
  (at level 61, right associativity) : py_scope.
Local Open Scope py_scope.

Definition string_of_Z (z : Z) : string := NilZero.string_of_int (Z.to_int z).

Definition logging_debug (msg : string) : M unit := emit (EvLog DEBUG msg).
Definition logging_warning (msg : string) : M unit := emit (EvLog WARNING msg).

(** [time.sleep(d)] raises [ValueError] on a negative length. *)
Definition time_sleep (d : Z) : M unit :=
  if d <? 0 then raise ValueError else emit (EvSleep d).

Section Script.

(** The network: what the [n]-th request of the run (counted from 0)
    does, given the session and the arguments of the call. *)
Variable network : nat -> Session -> GetCall -> result Response.

Definition session_get (s : Session) (c : GetCall) : M Response :=
  fun n => (network n s c, [EvGet s c]).

Definition resp_json (resp : Response) : M pyval :=
  fun _ => (json resp, [EvJson]).

(** ** [_get_dataset_metadata] *)

Definition _get_dataset_metadata (id_str : string)
    (ckan_api_key : option string) (ckan_url : string)
    (session : Session) : M pyval :=
  resp <- session_get session
            {| get_url := PStr (ckan_url ++ "/" ++ PACKAGE_LOOKUP_PATH);
               get_params := Some [("id", id_str)];
               get_headers := [("X-CKAN-API-Key", ckan_api_key)] |} ;;
  if status_code resp =? 200 then
    parsed <- resp_json resp ;;
    body <- lift (py_getitem parsed "result") ;;
    ret body
  else if status_code resp =? 404 then
    raise (RuntimeError ("'" ++ id_str ++ "' doesn't exist on " ++ ckan_url ++ "!"))
  else
    logging_warning ("Got unexpected status code on " ++ id_str ++ " - "
                     ++ string_of_Z (status_code resp)) ;;
    logging_debug ("response text: " ++ text resp) ;;
    ret PNone.

(** ** [_form_dataset_resources_lookup] *)

Definition is_None (v : pyval) : bool :=
  match v with PNone => true | _ => false end.

(** One round of the dict comprehension
    [{resource[NAME_FIELD]: resource[URL_FIELD] for resource in ...}]:
    the key expression, then the value expression, then the insertion,
    which hashes the key. *)
Definition lookup_entry (resource : pyval) (acc : pydict) : result pydict :=
  match py_getitem resource NAME_FIELD with
  | Raise e => Raise e
  | Ok k =>
      match py_getitem resource URL_FIELD with
      | Raise e => Raise e
      | Ok v => if hashable k then Ok (dict_set k v acc) else Raise TypeError
      end
  end.

Fixpoint dict_comprehension (rs : list pyval) (acc : pydict) : result pydict :=
  match rs with
  | [] => Ok acc
  | r :: rs' =>
      match lookup_entry r acc with
      | Ok acc' => dict_comprehension rs' acc'
      | Raise e => Raise e
      end
  end.

Definition _form_dataset_resources_lookup (dataset_name : string)
    (ckan_api_key : option string) (ckan_url : string)
    (session : Session) : M pydict :=
  dataset_metadata <- _get_dataset_metadata dataset_name
                        ckan_api_key ckan_url session ;;
  if is_None dataset_metadata then
    raise (RuntimeError ("I don't know what to do with '" ++ dataset_name
                         ++ "' - it doesn't exist"))
  else
    resources <- lift (py_getitem dataset_metadata RESOURCES_FIELD) ;;
    items <- lift (py_iter resources) ;;
    dataset_resource_lookup <- lift (dict_comprehension items []) ;;
    ret dataset_resource_lookup.

(** ** [_get_resource_file] *)

(** [range(n)]. *)
Definition py_range (n : Z) : list Z := map Z.of_nat (seq 0 (Z.to_nat n)).

(** The [for t in range(...)] loop with its [try]/[except], over the
    indices still to run; [raise last_exception] follows the loop, and
    raising [None] is a [TypeError].  [http_session] is the module-level
    session the function reads. *)
Fixpoint retry_loop (factor : Z) (http_session : Session) (url : pyval)
    (ckan_api_key : option string) (ts : list Z)
    (last_exception : option exn) : M Response :=
  match ts with
  | [] =>
      match last_exception with
      | Some e => raise e
      | None => raise TypeError
      end
  | t :: ts' =>
      r <- try_except
             (session_get http_session
                {| get_url := url;
                   get_params := None;
                   get_headers := [("X-CKAN-API-Key", ckan_api_key)] |}) ;;
      match r with
      | Ok resp => ret resp
      | Raise e =>
          let sleep_delay := factor * (t + 1) in
          logging_debug ("Sleeping for " ++ string_of_Z sleep_delay ++ "s...") ;;
          time_sleep sleep_delay ;;
          retry_loop factor http_session url ckan_api_key ts' (Some e)
      end
  end.

(** The function with its two constants as parameters. *)
Definition get_resource_file_with (retries factor : Z)
    (http_session : Session) (url : pyval)
    (ckan_api_key : option string) : M Response :=
  retry_loop factor http_session url ckan_api_key (py_range retries) None.

Definition _get_resource_file : Session -> pyval -> option string -> M Response :=
  get_resource_file_with RETRIES RETRY_DELAY_FACTOR.

End Script.

(** ** What [requests] sends *)

(** [requests] merges the headers of a call into the session's headers in
    a case-insensitive dict and then removes every key whose value is
    [None] ([requests.sessions.merge_setting]). *)
Definition lower_ascii (c : ascii) : ascii :=
  let n := nat_of_ascii c in
  if ((65 <=? n) && (n <=? 90))%nat then ascii_of_nat (n + 32) else c.

Fixpoint lower (s : string) : string :=
  match s with
  | EmptyString => EmptyString
  | String c s' => String (lower_ascii c) (lower s')
  end.

Definition header_eqb (a b : string) : bool := String.eqb (lower a) (lower b).

Fixpoint ci_set {A : Type} (k : string) (v : A) (d : list (string * A))
    : list (string * A) :=
  match d with
  | [] => [(k, v)]
  | (k', v') :: d' =>
      if header_eqb k' k then (k, v) :: d'
      else (k', v') :: ci_set k v d'
  end.

Fixpoint ci_get {A : Type} (k : string) (d : list (string * A)) : option A :=
  match d with
  | [] => None
  | (k', v') :: d' => if header_eqb k' k then Some v' else ci_get k d'
  end.

Definition ci_update {A : Type} (d new : list (string * A)) : list (string * A) :=
  fold_left (fun acc kv => ci_set (fst kv) (snd kv) acc) new d.

Definition drop_none (d : list (string * option string)) : list (string * string) :=
  flat_map (fun kv => match snd kv with
                      | Some v => [(fst kv, v)]
                      | None => []
                      end) d.

Definition merge_setting (request_setting session_setting : list (string * option string))
    : list (string * string) :=
  drop_none (ci_update (ci_update [] session_setting) request_setting).

(** The headers that go out with a call made on a session. *)
Definition sent_headers (s : Session) (c : GetCall) : list (string * string) :=
  merge_setting (get_headers c) (session_headers s).

(** ** Regular expressions *)

(** The patterns of Python's [re] that are modelled: an optional leading
    [^] followed by characters that all stand for themselves. *)
Inductive regex : Type :=
| AtStart (lit : string)
| Anywhere (lit : string).

Definition is_special (c : ascii) : bool :=
  existsb (Ascii.eqb c)
    (list_ascii_of_string ".^$*+?{}[]\|()").

Definition all_literal (s : string) : bool :=
  forallb (fun c => negb (is_special c)) (list_ascii_of_string s).

Definition re_parse (p : string) : option regex :=
  match p with
  | String "^" lit => if all_literal lit then Some (AtStart lit) else None
  | _ => if all_literal p then Some (Anywhere p) else None
  end.

Fixpoint contains (lit s : string) : bool :=
  String.prefix lit s ||
  match s with
  | EmptyString => false
  | String _ s' => contains lit s'
  end.

(** [pattern.search(s)] is a match (true) or [None] (false). *)
Definition re_search (r : regex) (s : string) : bool :=
  match r with
  | AtStart lit => String.prefix lit s
  | Anywhere lit => contains lit s
  end.

(** ** The orchestration (the [__main__] block from the destination
    check on; [args] is the parsed command line) *)

Record Args : Type := {
  dataset_id : string;
  ckan_api_key : option string;
  ckan_url : string;
  resource_name_regex : option string;
  destination_dir : string;
  verbose : bool;
  no_progress_bar : bool
}.

(** Lines 135-140: [filter_regex] is a compiled pattern, given by its
    [search], or [None]; a pattern's [search] raises [TypeError] on a
    name that is not a string. *)
Fixpoint filter_resources (filter_regex : option (string -> bool))
    (items : list (pyval * pyval)) : result (list (pyval * pyval)) :=
  match items with
  | [] => Ok []
  | (resource_name, resource_url) :: rest =>
      let keep_rest keep :=
        match filter_resources filter_regex rest with
        | Ok l => Ok (if keep : bool then (resource_name, resource_url) :: l else l)
        | Raise e => Raise e
        end in
      match filter_regex with
      | None => keep_rest true
      | Some search =>
          match resource_name with
          | PStr s => keep_rest (search s)
          | _ => Raise TypeError
          end
      end
  end.

Section Orchestration.

Variable network : nat -> Session -> GetCall -> result Response.

(** Python's [re.compile]: an error or the [search] of the compiled
    pattern. *)
Variable re_compile : string -> result (string -> bool).

(** [local_dir.exists()]. *)
Variable path_exists : string -> bool.

(** [pathlib.Path(urllib.parse.urlparse(resource_url).path).name]. *)
Variable url_filename : pyval -> result string.

(** [open(local_dir / filename, "wb")]: whether the file opens. *)
Variable open_wb : string -> string -> result unit.

(** [re.compile(args.resource_name_regex) if args.resource_name_regex
    else None]: the empty string is falsy. *)
Definition compile_filter (resource_name_regex : option string)
    : result (option (string -> bool)) :=
  match resource_name_regex with
  | None | Some EmptyString => Ok None
  | Some p =>
      match re_compile p with
      | Ok search => Ok (Some search)
      | Raise e => Raise e
      end
  end.

(** Lines 135-140 together. *)
Definition assemble_resource_list (resource_name_regex : option string)
    (resources_dict : pydict) : result (list (pyval * pyval)) :=
  match compile_filter resource_name_regex with
  | Ok filter_regex => filter_resources filter_regex (dict_items resources_dict)
  | Raise e => Raise e
  end.

(** The generator and the loop that consumes it, one resource at a time:
    the file name, the fetch, the status assertion, the write. *)
Fixpoint download_all (args : Args) (http_session : Session)
    (resource_list : list (pyval * pyval)) : M unit :=
  match resource_list with
  | [] => ret tt
  | (resource_name, resource_url) :: rest =>
      filename <- lift (url_filename resource_url) ;;
      http_resp <- _get_resource_file network http_session resource_url
                     (ckan_api_key args) ;;
      (if status_code http_resp =? 200 then ret tt else raise AssertionError) ;;
      lift (open_wb (destination_dir args) filename) ;;
      emit (EvWrite (destination_dir args) filename (content http_resp)) ;;
      download_all args http_session rest
  end.

(** [http_session] is the session [requests.Session()] creates.  The
    progress bar does not change the list it wraps. *)
Definition main (args : Args) (http_session : Session) : M unit :=
  (if path_exists (destination_dir args) then ret tt else raise AssertionError) ;;
  logging_debug ("Looking up resources for " ++ dataset_id args) ;;
  resources_dict <- _form_dataset_resources_lookup network (dataset_id args)
                      (ckan_api_key args) (ckan_url args) http_session ;;
  logging_debug ("len(resources_dict)="
                 ++ string_of_Z (Z.of_nat (List.length resources_dict))) ;;
  logging_debug "Assembling list of resources" ;;
  resource_list <- lift (assemble_resource_list (resource_name_regex args)
                           resources_dict) ;;
  logging_debug ("len(resource_list)="
                 ++ string_of_Z (Z.of_nat (List.length resource_list))) ;;
  logging_debug "Iterating over list of responses" ;;
  download_all args http_session resource_list.

End Orchestration.

(** ** Vocabulary of the properties *)

(** The call [_get_resource_file] makes at every attempt. *)
Definition resource_call (url : pyval) (key : option string) : GetCall :=
  {| get_url := url; get_params := None;
     get_headers := [("X-CKAN-API-Key", key)] |}.

(** The call [_get_dataset_metadata] makes. *)
Definition package_show_call (id_str : string) (key : option string)
    (ckan_url : string) : GetCall :=
  {| get_url := PStr (ckan_url ++ "/" ++ PACKAGE_LOOKUP_PATH);
     get_params := Some [("id", id_str)];
     get_headers := [("X-CKAN-API-Key", key)] |}.

Definition sleep_log (d : Z) : event :=
  EvLog DEBUG ("Sleeping for " ++ string_of_Z d ++ "s...").

(** What one failed attempt at index [t] leaves in the trace. *)
Definition failed_attempt (factor : Z) (s : Session) (url : pyval)
    (key : option string) (t : Z) : list event :=
  [EvGet s (resource_call url key);
   sleep_log (factor * (t + 1));
   EvSleep (factor * (t + 1))].

(** What [raise last_exception] raises after the loop. *)
Definition after_loop (last : option exn) : exn :=
  match last with
  | Some e => e
  | None => TypeError
  end.

(** The two errors of the resolver and the log records of an unexpected
    status, as the script words them. *)
Definition not_found_error (id_str ckan_url : string) : exn :=
  RuntimeError ("'" ++ id_str ++ "' doesn't exist on " ++ ckan_url ++ "!").

Definition unavailable_error (dataset_name : string) : exn :=
  RuntimeError ("I don't know what to do with '" ++ dataset_name
                ++ "' - it doesn't exist").

Definition unexpected_status_logs (id_str : string) (resp : Response)
    : list event :=
  [EvLog WARNING ("Got unexpected status code on " ++ id_str ++ " - "
                  ++ string_of_Z (status_code resp));
   EvLog DEBUG ("response text: " ++ text resp)].

(** A resource descriptor's name and URL when they are strings. *)
Definition resource_name (r : pyval) : option string :=
  match py_getitem r NAME_FIELD with
  | Ok (PStr name) => Some name
  | _ => None
  end.

Definition resource_url (r : pyval) : option string :=
  match py_getitem r URL_FIELD with
  | Ok (PStr u) => Some u
  | _ => None
  end.

(** A well-formed descriptor: an object with a string ["name"] and a
    string ["url"]. *)
Definition well_formed_resource (r : pyval) : bool :=
  match resource_name r, resource_url r with
  | Some _, Some _ => true
  | _, _ => false
  end.

Definition resource_names (rs : list pyval) : list string :=
  flat_map (fun r => match resource_name r with
                     | Some name => [name]
                     | None => []
                     end) rs.

(** The errors of a failed subscription: [KeyError] for a key a dict does
    not have, [TypeError] for a value that is no dict (or a key that does
    not hash). *)
Definition subscript_error (e : exn) : bool :=
  match e with
  | KeyError _ | TypeError => true
  | _ => false
  end.

(** ** Sample sessions, networks and responses *)

Definition default_session : Session :=
  {| session_headers :=
       [("User-Agent", Some "python-requests/2.31.0");
        ("Accept-Encoding", Some "gzip, deflate");
        ("Accept", Some "*/*");
        ("Connection", Some "keep-alive")] |}.

(** The error of the [i]-th request of a network that is down. *)
Definition attempt_error (i : nat) : exn :=
  RequestException ("attempt " ++ string_of_Z (Z.of_nat i)).

Definition always_down : nat -> Session -> GetCall -> result Response :=
  fun i _ _ => Raise (attempt_error i).

(** Down for the first [k] requests, then serving [resp]. *)
Definition up_after (k : nat) (resp : Response)
    : nat -> Session -> GetCall -> result Response :=
  fun i _ _ => if (i <? k)%nat then Raise (attempt_error i) else Ok resp.

Definition file_response : Response :=
  {| status_code := 200; json := Raise JSONDecodeError;
     text := "data"; content := "data" |}.

Definition server_error_response : Response :=
  {| status_code := 500; json := Raise JSONDecodeError;
     text := "Internal Server Error"; content := "Internal Server Error" |}.

Definition not_found_response : Response :=
  {| status_code := 404; json := Raise JSONDecodeError;
     text := "Not found"; content := "Not found" |}.

Definition sample_url : pyval := PStr "http://x/a.csv".

Definition sample_args : Args :=
  {| dataset_id := "billed-consumption-data";
     ckan_api_key := None;
     ckan_url := COCT_CKAN_URL;
     resource_name_regex := None;
     destination_dir := ".";
     verbose := false;
     no_progress_bar := true |}.

(** A network that answers every request with [resp]. *)
Definition serving (resp : Response)
    : nat -> Session -> GetCall -> result Response :=
  fun _ _ _ => Ok resp.

(** A metadata document with a duplicated resource name. *)
Definition sample_resources : list pyval :=
  [PDict [("id", PStr "r1"); ("name", PStr "a"); ("url", PStr "http://x/a.csv")];
   PDict [("id", PStr "r2"); ("name", PStr "b-report"); ("url", PStr "http://x/b.csv")];
   PDict [("id", PStr "r3"); ("name", PStr "a"); ("url", PStr "http://x/a-v2.csv")]].

Definition package_show_body (resources : list pyval) : pyval :=
  PDict [("help", PStr "https://cctdata.co.za/data-catalogue/api/3/action/help_show?name=package_show");
         ("success", PBool true);
         ("result", PDict [("id", PStr "d1");
                           ("name", PStr "billed-consumption-data");
                           ("resources", PList resources)])].

Definition metadata_response (body : pyval) : Response :=
  {| status_code := 200; json := Ok body; text := "{...}"; content := "{...}" |}.

(** Resources whose second descriptor has no ["url"]. *)
Definition lacking_url : list pyval :=
  [PDict [("name", PStr "a"); ("url", PStr "http://x/a.csv")];
   PDict [("name", PStr "b-report")]].

(** The mapping of the filtering example. *)
Definition sample_mapping : pydict :=
  [(PStr "a", PStr "http://x/a.csv");
   (PStr "b-report", PStr "http://x/b.csv");
   (PStr "ab", PStr "http://x/c.csv")].

(** An [re.compile] that knows the modelled patterns only and rejects
    every other one. *)
Definition literal_re_compile (p : string) : result (string -> bool) :=
  match re_parse p with
  | Some r => Ok (re_search r)
  | None => Raise ValueError
  end.

(** The keys of a case-insensitive dict, lowered. *)
Definition lowered_keys {A : Type} (d : list (string * A)) : list string :=
  map (fun kv => lower (fst kv)) d.

(** The seconds slept in all. *)
Definition total_sleep (l : list Z) : Z := fold_right Z.add 0 l.

(** A catalogue whose answers do not depend on when it is asked: a call
    with [params] is the metadata lookup, a call without is a download,
    answered by the URL. *)
Definition catalogue (metadata : Response) (file_of : pyval -> result Response)
    : nat -> Session -> GetCall -> result Response :=
  fun _ _ c =>
    match get_params c with
    | Some _ => Ok metadata
    | None => file_of (get_url c)
    end.

(** What one completed download leaves in the trace. *)
Definition downloaded (s : Session) (key : option string) (dir : string)
    (fname : pyval -> string) (serve : pyval -> Response)
    (item : pyval * pyval) : list event :=
  [EvGet s (resource_call (snd item) key);
   EvWrite dir (fname (snd item)) (content (serve (snd item)))].

Definition name_matches (search : string -> bool) (item : pyval * pyval) : bool :=
  match fst item with
  | PStr name => search name
  | _ => false
  end.

Definition is_PStr (v : pyval) : bool :=
  match v with PStr _ => true | _ => false end.

(** The names of a list without repetition, each at the place of its
    first occurrence. *)
Definition first_occurrences (names : list string) : list string :=
  rev (nodup string_dec (rev names)).

(** The text after the last slash, for the sample runs. *)
Fixpoint last_segment (acc s : string) : string :=
  match s with
  | EmptyString => acc
  | String c s' =>
      if Ascii.eqb c "/" then last_segment EmptyString s'
      else last_segment (acc ++ String c EmptyString) s'
  end.

Definition sample_url_filename (u : pyval) : result string :=
  match u with
  | PStr s => Ok (last_segment EmptyString s)
  | _ => Raise TypeError
  end.

Definition sample_fname (u : pyval) : string :=
  match u with
  | PStr s => last_segment EmptyString s
  | _ => EmptyString
  end.

(** A resource that downloads well: its file name derives to
    [fname], the file opens, and the network answers every request for
    its URL with the same response, of status 200. *)
Definition downloads_well
    (network : nat -> Session -> GetCall -> result Response)
    (url_filename : pyval -> result string)
    (open_wb : string -> string -> result unit)
    (args : Args) (s : Session)
    (fname : pyval -> string) (serve : pyval -> Response)
    (item : pyval * pyval) : Prop :=
  url_filename (snd item) = Ok (fname (snd item))
  /\ open_wb (destination_dir args) (fname (snd item)) = Ok tt
  /\ status_code (serve (snd item)) = 200
  /\ forall i, network i s (resource_call (snd item) (ckan_api_key args))
               = Ok (serve (snd item)).

(** The files of the sample catalogue: one URL answers 500, one is
    unreachable, the others serve their own text. *)
Definition sample_file_of (u : pyval) : result Response :=
  match u with
  | PStr "http://x/broken.csv" =>
      Ok server_error_response
  | PStr "http://x/down.csv" =>
      Raise (RequestException "connection refused")
  | _ => Ok file_response
  end.

Definition sample_serve (u : pyval) : Response := file_response.

(** The sample catalogue and the sample runs over it. *)
Definition sample_catalogue : nat -> Session -> GetCall -> result Response :=
  catalogue (metadata_response (package_show_body sample_resources))
    sample_file_of.

Definition sample_open (dir filename : string) : result unit := Ok tt.

Definition sample_queue : list (pyval * pyval) :=
  [(PStr "a", PStr "http://x/a.csv"); (PStr "ab", PStr "http://x/c.csv")].


(** * Properties *)

(** ** The fetcher *)

Section Fetcher.

Variable network : nat -> Session -> GetCall -> result Response.
Variable factor : Z.
Variable s : Session.
Variable url : pyval.
Variable key : option string.

Let loop := retry_loop network factor s url key.
Let call := resource_call url key.
Let failed_attempt := failed_attempt factor s url key.

Lemma retry_loop_cons t ts last :
  loop (t :: ts) last =
    bind (try_except (session_get network s call))
      (fun r =>
         match r with
         | Ok resp => ret resp
         | Raise e =>
             bind (logging_debug ("Sleeping for "
                                  ++ string_of_Z (factor * (t + 1)) ++ "s..."))
               (fun _ => bind (time_sleep (factor * (t + 1)))
                           (fun _ => loop ts (Some e)))
         end).
Proof. reflexivity. Qed.

Lemma retry_step_ok t ts last n resp :
  network n s call = Ok resp ->
  loop (t :: ts) last n = (Ok resp, [EvGet s call]).
Proof.
  intros H. rewrite retry_loop_cons.
  unfold bind, try_except, session_get. rewrite H. reflexivity.
Qed.

Lemma retry_step_escape t ts last n e :
  network n s call = Raise e ->
  derives_from_Exception e = false ->
  loop (t :: ts) last n = (Raise e, [EvGet s call]).
Proof.
  intros H He. rewrite retry_loop_cons.
  unfold bind, try_except, session_get. rewrite H, He. reflexivity.
Qed.

Lemma retry_step_fail t ts last n e :
  network n s call = Raise e ->
  derives_from_Exception e = true ->
  0 <= factor * (t + 1) ->
  loop (t :: ts) last n =
    (fst (loop ts (Some e) (S n)),
     EvGet s call :: sleep_log (factor * (t + 1))
       :: EvSleep (factor * (t + 1)) :: snd (loop ts (Some e) (S n))).
Proof.
  intros H He Hd. rewrite retry_loop_cons.
  unfold bind, try_except, session_get. rewrite H, He.
  unfold logging_debug, time_sleep, emit.
  destruct (Z.ltb_spec (factor * (t + 1)) 0) as [Hlt | _]; [lia |].
  replace (n + List.length (gets [EvGet s call]) + List.length (gets [EvLog DEBUG ("Sleeping for " ++ string_of_Z (factor * (t + 1)) ++ "s...")]) + List.length (gets [EvSleep (factor * (t + 1))]))%nat with (S n)
    by (unfold gets; simpl; lia).
  destruct (loop ts (Some e) (S n)) as [r tr].
  reflexivity.
Qed.

Lemma retry_loop_nil last n : loop [] last n = (Raise (after_loop last), []).
Proof. destruct last; reflexivity. Qed.

(** Every attempt raises: the loop runs over all of [ts], sleeping after
    each attempt, and re-raises the error of the last one. *)
Lemma retry_exhausted ts : forall (errs : nat -> exn) last n,
  0 <= factor ->
  Forall (fun t => 0 <= t) ts ->
  (forall i, (i < List.length ts)%nat ->
     network (n + i)%nat s call = Raise (errs i)
     /\ derives_from_Exception (errs i) = true) ->
  loop ts last n =
    (Raise (match List.length ts with
            | O => after_loop last
            | S k => errs k
            end),
     flat_map failed_attempt ts).
Proof.
  induction ts as [| t ts IH]; intros errs last n Hf Hts Hnet.
  - apply retry_loop_nil.
  - inversion Hts as [| ? ? Ht Hts']; subst.
    destruct (Hnet O) as [H0 D0]; [simpl; lia |].
    rewrite Nat.add_0_r in H0.
    rewrite (retry_step_fail t ts last n (errs O) H0 D0) by nia.
    rewrite (IH (fun i => errs (S i)) (Some (errs O)) (S n) Hf Hts').
    + simpl. destruct ts; reflexivity.
    + intros i Hi. replace (S n + i)%nat with (n + S i)%nat by lia.
      apply Hnet. simpl. lia.
Qed.

(** The first [k] attempts raise and the next one completes: the loop
    returns that response right after the request. *)
Lemma retry_until_ok k : forall ts (errs : nat -> exn) last n resp,
  0 <= factor ->
  Forall (fun t => 0 <= t) ts ->
  (k < List.length ts)%nat ->
  (forall i, (i < k)%nat ->
     network (n + i)%nat s call = Raise (errs i)
     /\ derives_from_Exception (errs i) = true) ->
  network (n + k)%nat s call = Ok resp ->
  loop ts last n =
    (Ok resp, (flat_map failed_attempt (firstn k ts) ++ [EvGet s call])%list).
Proof.
  induction k as [| k IH]; intros ts errs last n resp Hf Hts Hk Hnet Hok.
  - destruct ts as [| t ts]; [simpl in Hk; lia |].
    rewrite Nat.add_0_r in Hok. apply retry_step_ok. exact Hok.
  - destruct ts as [| t ts]; [simpl in Hk; lia |].
    inversion Hts as [| ? ? Ht Hts']; subst.
    destruct (Hnet O) as [H0 D0]; [lia |].
    rewrite Nat.add_0_r in H0.
    rewrite (retry_step_fail t ts last n (errs O) H0 D0) by nia.
    rewrite (IH ts (fun i => errs (S i)) (Some (errs O)) (S n) resp Hf Hts').
    + reflexivity.
    + simpl in Hk. lia.
    + intros i Hi. replace (S n + i)%nat with (n + S i)%nat by lia.
      apply Hnet. lia.
    + replace (S n + k)%nat with (n + S k)%nat by lia. exact Hok.
Qed.

(** Whatever the network does, every request of the loop is the same
    call on the same session. *)
Lemma retry_loop_gets ts : forall last n,
  Forall (fun sc => sc = (s, call)) (gets (snd (loop ts last n))).
Proof.
  induction ts as [| t ts IH]; intros last n.
  - rewrite retry_loop_nil. constructor.
  - rewrite retry_loop_cons.
    unfold bind, try_except, session_get.
    destruct (network n s call) as [resp | e].
    + simpl. repeat constructor.
    + destruct (derives_from_Exception e); [| simpl; repeat constructor].
      unfold logging_debug, time_sleep, emit.
      destruct (factor * (t + 1) <? 0).
      * simpl. repeat constructor.
      * match goal with
        | |- context [loop ts (Some e) ?m] =>
            specialize (IH (Some e) m); destruct (loop ts (Some e) m) as [r tr]
        end.
        simpl in *. constructor; [reflexivity | exact IH].
Qed.

End Fetcher.

Lemma py_range_length n : List.length (py_range n) = Z.to_nat n.
Proof. unfold py_range. rewrite length_map, length_seq. reflexivity. Qed.

Lemma py_range_nonneg n : Forall (fun t => 0 <= t) (py_range n).
Proof.
  unfold py_range. apply Forall_forall. intros t Ht.
  apply in_map_iff in Ht. destruct Ht as [i [<- _]]. lia.
Qed.

Lemma gets_app t1 t2 : gets (t1 ++ t2) = (gets t1 ++ gets t2)%list.
Proof. apply flat_map_app. Qed.

Lemma sleeps_app t1 t2 : sleeps (t1 ++ t2) = (sleeps t1 ++ sleeps t2)%list.
Proof. apply flat_map_app. Qed.

Lemma gets_failed_attempts factor s url key ts :
  gets (flat_map (failed_attempt factor s url key) ts)
  = repeat (s, resource_call url key) (List.length ts).
Proof.
  induction ts as [| t ts IH]; [reflexivity |].
  simpl. f_equal. exact IH.
Qed.

Lemma sleeps_failed_attempts factor s url key ts :
  sleeps (flat_map (failed_attempt factor s url key) ts)
  = map (fun t => factor * (t + 1)) ts.
Proof.
  induction ts as [| t ts IH]; [reflexivity |].
  simpl. f_equal. exact IH.
Qed.

(** ** Claims on the fetcher *)

(** C1 (as the code has it): when every one of the [retries] attempts
    raises an [Exception], the fetcher makes [retries] requests and sleeps
    after each of them, the last included: the trace is, for each index
    [t] of [range(retries)] in order, the request, the log record and a
    sleep of [factor * (t + 1)] seconds.  So there are [retries] sleeps,
    not [retries - 1]. *)
Theorem fetch_exhausted_sleeps_after_every_attempt
    (network : nat -> Session -> GetCall -> result Response)
    (retries factor : Z) (s : Session) (url : pyval) (key : option string)
    (n : nat) (errs : nat -> exn) :
  0 <= factor ->
  (forall i, (i < Z.to_nat retries)%nat ->
     network (n + i)%nat s (resource_call url key) = Raise (errs i)
     /\ derives_from_Exception (errs i) = true) ->
  let t := snd (get_resource_file_with network retries factor s url key n) in
  t = flat_map (failed_attempt factor s url key) (py_range retries)
  /\ List.length (gets t) = Z.to_nat retries
  /\ sleeps t = map (fun t => factor * (t + 1)) (py_range retries)
  /\ List.length (sleeps t) = Z.to_nat retries.
Proof.
  intros Hf Hnet t. subst t. unfold get_resource_file_with.
  rewrite (retry_exhausted network factor s url key (py_range retries)
             errs None n Hf (py_range_nonneg retries)).
  - simpl snd. split; [reflexivity |].
    rewrite gets_failed_attempts, sleeps_failed_attempts.
    rewrite repeat_length, length_map, py_range_length. auto.
  - rewrite py_range_length. exact Hnet.
Qed.

Lemma fetch_exhausted_sleeps_after_every_attempt_witness :
  let t := snd (_get_resource_file always_down default_session sample_url None 0%nat) in
  List.length (gets t) = 3%nat /\ sleeps t = [10; 20; 30].
Proof.
  destruct (fetch_exhausted_sleeps_after_every_attempt always_down RETRIES
              RETRY_DELAY_FACTOR default_session sample_url None 0%nat
              attempt_error) as (_ & H1 & H2 & _).
  - unfold RETRY_DELAY_FACTOR. lia.
  - intros i _. split; reflexivity.
  - split; [exact H1 | exact H2].
Defined.

(** C1 as stated fails: with the script's constants and a network that is
    down, the three failed attempts are followed by three sleeps (10, 20
    and 30 seconds), the last event before the error being the 30-second
    sleep; the number of sleeps is not [RETRIES - 1]. *)
Lemma fetch_exhausted_sleeps_three_times :
  let t := snd (_get_resource_file always_down default_session sample_url None 0%nat) in
  (forall i, (i < Z.to_nat RETRIES)%nat ->
     exists e, always_down i default_session (resource_call sample_url None) = Raise e
               /\ derives_from_Exception e = true)
  /\ sleeps t = [10; 20; 30]
  /\ List.last t EvJson = EvSleep 30
  /\ List.length (sleeps t) <> Z.to_nat (RETRIES - 1).
Proof.
  split; [| split; [| split]].
  - intros i _. exists (attempt_error i). split; reflexivity.
  - vm_compute. reflexivity.
  - vm_compute. reflexivity.
  - vm_compute. discriminate.
Qed.

(** C3: when every one of the [retries] attempts raises an [Exception]
    (and there is at least one attempt), the fetcher raises the error of
    the last attempt. *)
Theorem fetch_exhausted_raises_last
    (network : nat -> Session -> GetCall -> result Response)
    (retries factor : Z) (s : Session) (url : pyval) (key : option string)
    (n : nat) (errs : nat -> exn) :
  0 < retries ->
  0 <= factor ->
  (forall i, (i < Z.to_nat retries)%nat ->
     network (n + i)%nat s (resource_call url key) = Raise (errs i)
     /\ derives_from_Exception (errs i) = true) ->
  fst (get_resource_file_with network retries factor s url key n)
  = Raise (errs (Z.to_nat retries - 1)%nat).
Proof.
  intros Hr Hf Hnet. unfold get_resource_file_with.
  rewrite (retry_exhausted network factor s url key (py_range retries)
             errs None n Hf (py_range_nonneg retries)).
  - simpl fst. rewrite py_range_length.
    destruct (Z.to_nat retries) as [| k] eqn:E; [lia |].
    simpl. rewrite Nat.sub_0_r. reflexivity.
  - rewrite py_range_length. exact Hnet.
Qed.

Lemma fetch_exhausted_raises_last_witness :
  fst (_get_resource_file always_down default_session sample_url None 0%nat)
  = Raise (attempt_error 2)
  /\ attempt_error 2 <> attempt_error 0
  /\ attempt_error 2 <> attempt_error 1.
Proof.
  split; [| split; discriminate].
  apply (fetch_exhausted_raises_last always_down RETRIES RETRY_DELAY_FACTOR
           default_session sample_url None 0%nat attempt_error).
  - reflexivity.
  - unfold RETRY_DELAY_FACTOR. lia.
  - intros i _. split; reflexivity.
Defined.

(** C4: with three attempts allowed, when the first two raise and the
    third completes, the fetcher returns the response of the third and
    has slept twice, [factor * 1] then [factor * 2] seconds. *)
Theorem fetch_succeeds_on_third_attempt
    (network : nat -> Session -> GetCall -> result Response)
    (factor : Z) (s : Session) (url : pyval) (key : option string)
    (n : nat) (e0 e1 : exn) (resp : Response) :
  0 <= factor ->
  network n s (resource_call url key) = Raise e0 ->
  derives_from_Exception e0 = true ->
  network (n + 1)%nat s (resource_call url key) = Raise e1 ->
  derives_from_Exception e1 = true ->
  network (n + 2)%nat s (resource_call url key) = Ok resp ->
  let out := get_resource_file_with network 3 factor s url key n in
  fst out = Ok resp
  /\ sleeps (snd out) = [factor * 1; factor * 2]
  /\ List.length (gets (snd out)) = 3%nat.
Proof.
  intros Hf H0 D0 H1 D1 H2 out. subst out. unfold get_resource_file_with.
  rewrite (retry_until_ok network factor s url key 2 (py_range 3)
             (fun i => match i with O => e0 | _ => e1 end) None n resp
             Hf (py_range_nonneg 3)).
  - simpl fst. split; [reflexivity |]. split; reflexivity.
  - simpl. lia.
  - intros i Hi. destruct i as [| [| i]]; [| | lia].
    + rewrite Nat.add_0_r. auto.
    + auto.
  - exact H2.
Qed.

Lemma fetch_succeeds_on_third_attempt_witness :
  let out := _get_resource_file (up_after 2 file_response) default_session
               sample_url None 0%nat in
  fst out = Ok file_response /\ sleeps (snd out) = [10; 20].
Proof.
  destruct (fetch_succeeds_on_third_attempt (up_after 2 file_response)
              RETRY_DELAY_FACTOR default_session sample_url None 0%nat
              (attempt_error 0) (attempt_error 1) file_response)
    as (H1 & H2 & _);
    try reflexivity.
  - unfold RETRY_DELAY_FACTOR. lia.
  - split; [exact H1 | exact H2].
Defined.

(** C7: the first attempt that completes is returned as it is, whatever
    its status code: when the first [k] attempts raise and attempt [k]
    (one of the [retries] allowed) completes with [resp], the fetcher
    returns [resp] after [k + 1] requests and [k] sleeps, the request that
    completed being its last effect.  In particular a response to the
    very first attempt is returned after that single request, without any
    sleep. *)
Theorem fetch_returns_first_completed_response
    (network : nat -> Session -> GetCall -> result Response)
    (retries factor : Z) (s : Session) (url : pyval) (key : option string)
    (n k : nat) (errs : nat -> exn) (resp : Response) :
  0 <= factor ->
  (k < Z.to_nat retries)%nat ->
  (forall i, (i < k)%nat ->
     network (n + i)%nat s (resource_call url key) = Raise (errs i)
     /\ derives_from_Exception (errs i) = true) ->
  network (n + k)%nat s (resource_call url key) = Ok resp ->
  let out := get_resource_file_with network retries factor s url key n in
  fst out = Ok resp
  /\ List.length (gets (snd out)) = S k
  /\ List.length (sleeps (snd out)) = k
  /\ List.last (snd out) EvJson = EvGet s (resource_call url key)
  /\ (k = O -> snd out = [EvGet s (resource_call url key)]).
Proof.
  intros Hf Hk Hnet Hok out. subst out. unfold get_resource_file_with.
  rewrite (retry_until_ok network factor s url key k (py_range retries)
             errs None n resp Hf (py_range_nonneg retries));
    [| rewrite py_range_length; exact Hk | exact Hnet | exact Hok].
  simpl fst. simpl snd. split; [reflexivity |].
  assert (Hlen : List.length (firstn k (py_range retries)) = k).
  { rewrite length_firstn, py_range_length. lia. }
  rewrite gets_app, sleeps_app, gets_failed_attempts, sleeps_failed_attempts.
  rewrite !length_app, repeat_length, length_map, Hlen.
  split; [simpl; lia |]. split; [simpl; lia |].
  split; [apply last_last |].
  intros ->. reflexivity.
Qed.

Lemma fetch_returns_first_completed_response_witness :
  let out := _get_resource_file (up_after 0 server_error_response)
               default_session sample_url None 0%nat in
  fst out = Ok server_error_response
  /\ status_code server_error_response = 500
  /\ snd out = [EvGet default_session (resource_call sample_url None)].
Proof.
  destruct (fetch_returns_first_completed_response
              (up_after 0 server_error_response) RETRIES RETRY_DELAY_FACTOR
              default_session sample_url None 0%nat 0%nat attempt_error
              server_error_response) as (H1 & _ & _ & _ & H2).
  - unfold RETRY_DELAY_FACTOR. lia.
  - unfold RETRIES. lia.
  - intros i Hi. inversion Hi.
  - reflexivity.
  - split; [exact H1 |]. split; [reflexivity | exact (H2 eq_refl)].
Defined.

(** ** The resolver *)

Section Resolver.

Variable network : nat -> Session -> GetCall -> result Response.
Variable id_str : string.
Variable key : option string.
Variable ckan_url : string.
Variable s : Session.

Let call := package_show_call id_str key ckan_url.

(** [_get_dataset_metadata], case by case. *)
Lemma get_dataset_metadata_run n :
  _get_dataset_metadata network id_str key ckan_url s n =
    match network n s call with
    | Raise e => (Raise e, [EvGet s call])
    | Ok resp =>
        if status_code resp =? 200 then
          match json resp with
          | Ok parsed => (py_getitem parsed "result", [EvGet s call; EvJson])
          | Raise e => (Raise e, [EvGet s call; EvJson])
          end
        else if status_code resp =? 404 then
          (Raise (not_found_error id_str ckan_url), [EvGet s call])
        else
          (Ok PNone, EvGet s call :: unexpected_status_logs id_str resp)
    end.
Proof.
  change (_get_dataset_metadata network id_str key ckan_url s)
    with (bind (session_get network s call)
            (fun resp =>
               if status_code resp =? 200 then
                 bind (resp_json resp)
                   (fun parsed =>
                      bind (lift (py_getitem parsed "result")) (fun body => ret body))
               else if status_code resp =? 404 then
                 raise (not_found_error id_str ckan_url)
               else
                 bind (logging_warning
                         ("Got unexpected status code on " ++ id_str ++ " - "
                          ++ string_of_Z (status_code resp)))
                   (fun _ => bind (logging_debug ("response text: " ++ text resp))
                               (fun _ => ret PNone)))).
  unfold bind at 1, session_get.
  destruct (network n s call) as [resp | e]; [| reflexivity].
  destruct (status_code resp =? 200).
  - unfold bind, resp_json, lift, ret.
    destruct (json resp) as [parsed | e]; [| reflexivity].
    destruct (py_getitem parsed "result"); reflexivity.
  - destruct (status_code resp =? 404); reflexivity.
Qed.

(** [_form_dataset_resources_lookup] after a metadata call that
    returned. *)
Lemma form_lookup_run n meta t :
  _get_dataset_metadata network id_str key ckan_url s n = (Ok meta, t) ->
  _form_dataset_resources_lookup network id_str key ckan_url s n =
    (if is_None meta then Raise (unavailable_error id_str)
     else match py_getitem meta RESOURCES_FIELD with
          | Raise e => Raise e
          | Ok resources =>
              match py_iter resources with
              | Raise e => Raise e
              | Ok items => dict_comprehension items []
              end
          end,
     t).
Proof.
  intros H. unfold _form_dataset_resources_lookup, bind at 1. rewrite H.
  destruct (is_None meta).
  - unfold raise. rewrite app_nil_r. reflexivity.
  - unfold bind, lift, ret.
    destruct (py_getitem meta RESOURCES_FIELD) as [resources | e];
      [| rewrite app_nil_r; reflexivity].
    destruct (py_iter resources) as [items | e];
      [| rewrite !app_nil_r; reflexivity].
    destruct (dict_comprehension items []);
      rewrite !app_nil_r; reflexivity.
Qed.

(** ... and after one that raised. *)
Lemma form_lookup_raise n e t :
  _get_dataset_metadata network id_str key ckan_url s n = (Raise e, t) ->
  _form_dataset_resources_lookup network id_str key ckan_url s n = (Raise e, t).
Proof.
  intros H. unfold _form_dataset_resources_lookup, bind at 1. rewrite H.
  reflexivity.
Qed.

End Resolver.

(** A run of [main] whose resolution raises stops there. *)
Lemma main_stops_when_resolution_raises
    (network : nat -> Session -> GetCall -> result Response)
    (re_compile : string -> result (string -> bool))
    (path_exists : string -> bool)
    (url_filename : pyval -> result string)
    (open_wb : string -> string -> result unit)
    (args : Args) (http_session : Session) (n : nat) (e : exn) (t : list event) :
  path_exists (destination_dir args) = true ->
  _form_dataset_resources_lookup network (dataset_id args) (ckan_api_key args)
    (ckan_url args) http_session n = (Raise e, t) ->
  main network re_compile path_exists url_filename open_wb args http_session n
  = (Raise e,
     EvLog DEBUG ("Looking up resources for " ++ dataset_id args) :: t).
Proof.
  intros Hp H. unfold main. unfold bind at 1. rewrite Hp.
  unfold ret at 1. unfold bind at 1. unfold logging_debug at 1, emit.
  unfold bind at 1.
  cbn [gets flat_map List.length app]. rewrite !Nat.add_0_r.
  rewrite H. reflexivity.
Qed.

(** ** Claims on the resolver's errors *)

(** C5: on HTTP 404 the metadata fetch raises the error whose message
    spells the dataset id and the catalogue URL, after a single request;
    the mapping resolver raises the same error after that same single
    request; and a run of the script stops on it, having made this one
    request, no other, and written no file. *)
Theorem not_found_raises_without_retry_or_download
    (network : nat -> Session -> GetCall -> result Response)
    (re_compile : string -> result (string -> bool))
    (path_exists : string -> bool)
    (url_filename : pyval -> result string)
    (open_wb : string -> string -> result unit)
    (args : Args) (session : Session) (n : nat) (resp : Response) :
  let call := package_show_call (dataset_id args) (ckan_api_key args)
                (ckan_url args) in
  let err := RuntimeError ("'" ++ dataset_id args ++ "' doesn't exist on "
                           ++ ckan_url args ++ "!") in
  network n session call = Ok resp ->
  status_code resp = 404 ->
  path_exists (destination_dir args) = true ->
  _get_dataset_metadata network (dataset_id args) (ckan_api_key args)
    (ckan_url args) session n = (Raise err, [EvGet session call])
  /\ _form_dataset_resources_lookup network (dataset_id args)
       (ckan_api_key args) (ckan_url args) session n
     = (Raise err, [EvGet session call])
  /\ (let run := main network re_compile path_exists url_filename open_wb
                   args session n in
      fst run = Raise err
      /\ gets (snd run) = [(session, call)]
      /\ writes (snd run) = []).
Proof.
  intros call err Hnet Hst Hp.
  assert (Hmeta : _get_dataset_metadata network (dataset_id args)
                    (ckan_api_key args) (ckan_url args) session n
                  = (Raise err, [EvGet session call])).
  { rewrite get_dataset_metadata_run. fold call. rewrite Hnet, Hst.
    reflexivity. }
  pose proof (form_lookup_raise network _ _ _ _ n _ _ Hmeta) as Hform.
  split; [exact Hmeta |]. split; [exact Hform |].
  rewrite (main_stops_when_resolution_raises network re_compile path_exists
             url_filename open_wb args session n _ _ Hp Hform).
  repeat split.
Qed.

Lemma not_found_raises_without_retry_or_download_witness :
  let run := main (serving not_found_response) (fun _ => Raise ValueError)
               (fun _ => true) (fun _ => Ok "f") (fun _ _ => Ok tt)
               sample_args default_session 0%nat in
  fst run = Raise (RuntimeError
    "'billed-consumption-data' doesn't exist on https://cctdata.co.za/data-catalogue!")
  /\ List.length (gets (snd run)) = 1%nat.
Proof.
  destruct (not_found_raises_without_retry_or_download
              (serving not_found_response) (fun _ => Raise ValueError)
              (fun _ => true) (fun _ => Ok "f") (fun _ _ => Ok tt)
              sample_args default_session 0%nat not_found_response
              eq_refl eq_refl eq_refl) as (_ & _ & H1 & H2 & _).
  split; [exact H1 |]. rewrite H2. reflexivity.
Defined.

(** C6: on a status other than 200 and 404 the metadata fetch raises
    nothing and returns [None]; the mapping resolver then raises its own
    [RuntimeError], whose message is never the one of the 404 error; the
    single request is the only network effect and [resp.json()] is not
    called. *)
Theorem unexpected_status_is_unavailable
    (network : nat -> Session -> GetCall -> result Response)
    (id_str : string) (key : option string) (ckan_url : string)
    (session : Session) (n : nat) (resp : Response) :
  let call := package_show_call id_str key ckan_url in
  let err := RuntimeError ("I don't know what to do with '" ++ id_str
                           ++ "' - it doesn't exist") in
  network n session call = Ok resp ->
  status_code resp <> 200 ->
  status_code resp <> 404 ->
  fst (_get_dataset_metadata network id_str key ckan_url session n) = Ok PNone
  /\ (let out := _form_dataset_resources_lookup network id_str key ckan_url
                   session n in
      fst out = Raise err
      /\ gets (snd out) = [(session, call)]
      /\ json_calls (snd out) = 0%nat)
  /\ (forall id' url', err <> RuntimeError ("'" ++ id' ++ "' doesn't exist on "
                                            ++ url' ++ "!")).
Proof.
  intros call err Hnet H200 H404.
  assert (Hmeta : _get_dataset_metadata network id_str key ckan_url session n
                  = (Ok PNone, EvGet session call
                                 :: unexpected_status_logs id_str resp)).
  { rewrite get_dataset_metadata_run. fold call. rewrite Hnet.
    destruct (Z.eqb_spec (status_code resp) 200) as [E | _]; [contradiction |].
    destruct (Z.eqb_spec (status_code resp) 404) as [E | _]; [contradiction |].
    reflexivity. }
  split; [rewrite Hmeta; reflexivity |].
  split.
  - rewrite (form_lookup_run network _ _ _ _ n _ _ Hmeta).
    repeat split.
  - intros id' url'. unfold err. simpl. discriminate.
Qed.

Lemma unexpected_status_is_unavailable_witness :
  fst (_form_dataset_resources_lookup (serving server_error_response)
         "billed-consumption-data" None COCT_CKAN_URL default_session 0%nat)
  = Raise (RuntimeError
      "I don't know what to do with 'billed-consumption-data' - it doesn't exist").
Proof.
  destruct (unexpected_status_is_unavailable (serving server_error_response)
              "billed-consumption-data" None COCT_CKAN_URL default_session
              0%nat server_error_response eq_refl) as (_ & (H & _) & _).
  - discriminate.
  - discriminate.
  - exact H.
Defined.

(** ** Dicts with string keys *)

Lemma py_key_eqb_str k b : py_key_eqb k (PStr b) = true -> k = PStr b.
Proof.
  destruct k; simpl; try discriminate.
  intros H. apply String.eqb_eq in H. congruence.
Qed.

Lemma dict_get_set_same k v d :
  py_key_eqb k k = true -> dict_get k (dict_set k v d) = Some v.
Proof.
  intros Hk. induction d as [| [k' v'] d IH]; simpl.
  - rewrite Hk. reflexivity.
  - destruct (py_key_eqb k' k) eqn:E; simpl; rewrite E; auto.
Qed.

Lemma dict_get_set_other a b v d :
  a <> b -> dict_get (PStr a) (dict_set (PStr b) v d) = dict_get (PStr a) d.
Proof.
  intros Hab. induction d as [| [k' v'] d IH]; simpl.
  - destruct (String.eqb_spec b a); [congruence | reflexivity].
  - destruct (py_key_eqb k' (PStr b)) eqn:E; simpl.
    + apply py_key_eqb_str in E. subst k'. simpl.
      destruct (String.eqb_spec b a); [congruence | reflexivity].
    + rewrite IH. reflexivity.
Qed.

Lemma dict_keys_set_str k b v d :
  In k (dict_keys (dict_set (PStr b) v d)) <-> In k (dict_keys d) \/ k = PStr b.
Proof.
  induction d as [| [k' v'] d IH]; simpl.
  - intuition.
  - destruct (py_key_eqb k' (PStr b)) eqn:E; simpl.
    + apply py_key_eqb_str in E. subst k'. intuition.
    + unfold dict_keys in IH. rewrite IH. intuition.
Qed.

Lemma dict_keys_set_NoDup b v d :
  NoDup (dict_keys d) -> NoDup (dict_keys (dict_set (PStr b) v d)).
Proof.
  induction d as [| [k' v'] d IH]; simpl; intros Hnd.
  - constructor; [intros [] | constructor].
  - inversion Hnd as [| ? ? Hnotin Hnd']; subst.
    destruct (py_key_eqb k' (PStr b)) eqn:E; simpl.
    + constructor; assumption.
    + constructor; [| apply IH; exact Hnd'].
      intros Hin. apply (dict_keys_set_str k' b v d) in Hin.
      destruct Hin as [Hin | ->]; [contradiction |].
      simpl in E. rewrite String.eqb_refl in E. discriminate.
Qed.

(** ** The dict comprehension *)

Lemma lookup_entry_well_formed r acc name u :
  resource_name r = Some name ->
  resource_url r = Some u ->
  lookup_entry r acc = Ok (dict_set (PStr name) (PStr u) acc).
Proof.
  unfold resource_name, resource_url, lookup_entry.
  destruct (py_getitem r NAME_FIELD) as [[] |]; try discriminate.
  destruct (py_getitem r URL_FIELD) as [[] |]; try discriminate.
  intros [= ->] [= ->]. reflexivity.
Qed.

Lemma well_formed_resource_fields r :
  well_formed_resource r = true ->
  exists name u, resource_name r = Some name /\ resource_url r = Some u.
Proof.
  unfold well_formed_resource.
  destruct (resource_name r) as [name |]; [| discriminate].
  destruct (resource_url r) as [u |]; [| discriminate].
  intros _. exists name, u. auto.
Qed.

(** On well-formed descriptors the comprehension returns a dict: its keys
    are those it started with and the names; a name maps to the URL of
    its last descriptor; the other string keys keep their value. *)
Lemma comprehension_well_formed rs : forall acc,
  forallb well_formed_resource rs = true ->
  exists m,
    dict_comprehension rs acc = Ok m
    /\ (forall k, In k (dict_keys m) <->
                  In k (dict_keys acc)
                  \/ exists name, k = PStr name /\ In name (resource_names rs))
    /\ (NoDup (dict_keys acc) -> NoDup (dict_keys m))
    /\ (forall pre r post name u,
          rs = (pre ++ r :: post)%list ->
          resource_name r = Some name ->
          resource_url r = Some u ->
          ~ In name (resource_names post) ->
          dict_get (PStr name) m = Some (PStr u))
    /\ (forall name, ~ In name (resource_names rs) ->
          dict_get (PStr name) m = dict_get (PStr name) acc).
Proof.
  induction rs as [| r rs IH]; intros acc Hwf.
  - exists acc. simpl. repeat split; auto.
    + intros [H | (name & _ & [])]; exact H.
    + intros [| ? ?] ? ? ? ? H; discriminate H.
  - simpl in Hwf. apply andb_prop in Hwf. destruct Hwf as [Hr Hrs].
    destruct (well_formed_resource_fields r Hr) as (name & u & Hn & Hu).
    destruct (IH (dict_set (PStr name) (PStr u) acc) Hrs)
      as (m & Hm & Hkeys & Hnd & Hlast & Hother).
    exists m. simpl. rewrite (lookup_entry_well_formed r acc name u Hn Hu).
    split; [exact Hm |]. rewrite Hn. simpl.
    split; [| split; [| split]].
    + intros k. rewrite Hkeys, dict_keys_set_str. split.
      * intros [[H | H] | (x & Hx & Hin)]; eauto 6.
      * intros [H | (x & Hx & [<- | Hin])]; eauto 6.
    + intros H. apply Hnd, dict_keys_set_NoDup, H.
    + intros pre r0 post name0 u0 Heq Hn0 Hu0 Hnot.
      destruct pre as [| p pre]; simpl in Heq; injection Heq as -> ->.
      * rewrite (Hother name0 Hnot).
        assert (name0 = name) by congruence. assert (u0 = u) by congruence.
        subst. apply dict_get_set_same. simpl. apply String.eqb_refl.
      * eapply Hlast; eauto.
    + intros name0 Hnot.
      rewrite Hother by (intros Hin; apply Hnot; right; exact Hin).
      apply dict_get_set_other. intros ->. apply Hnot. left. reflexivity.
Qed.

(** The comprehension raises nothing but subscription errors. *)
Lemma lookup_entry_raises r acc e :
  lookup_entry r acc = Raise e -> subscript_error e = true.
Proof.
  unfold lookup_entry, py_getitem.
  destruct r; try (intros [= <-]; reflexivity).
  destruct (assoc NAME_FIELD d) as [k |]; [| intros [= <-]; reflexivity].
  destruct (assoc URL_FIELD d) as [v |]; [| intros [= <-]; reflexivity].
  destruct (hashable k); [discriminate | intros [= <-]; reflexivity].
Qed.

Lemma comprehension_raises rs : forall acc e,
  dict_comprehension rs acc = Raise e -> subscript_error e = true.
Proof.
  induction rs as [| r rs IH]; intros acc e; simpl; [discriminate |].
  destruct (lookup_entry r acc) as [acc' |] eqn:E.
  - apply IH.
  - intros [= <-]. eapply lookup_entry_raises; eauto.
Qed.

(** A descriptor without ["name"] or ["url"] makes its round raise. *)
Lemma lookup_entry_lacking d acc :
  assoc NAME_FIELD d = None \/ assoc URL_FIELD d = None ->
  lookup_entry (PDict d) acc
  = Raise (KeyError (match assoc NAME_FIELD d with
                     | None => NAME_FIELD
                     | Some _ => URL_FIELD
                     end)).
Proof.
  unfold lookup_entry, py_getitem.
  destruct (assoc NAME_FIELD d) as [k |]; [| reflexivity].
  intros [H | H]; [discriminate |]. rewrite H. reflexivity.
Qed.

Lemma comprehension_lacking rs : forall acc d,
  In (PDict d) rs ->
  assoc NAME_FIELD d = None \/ assoc URL_FIELD d = None ->
  exists e, dict_comprehension rs acc = Raise e.
Proof.
  induction rs as [| r rs IH]; intros acc d Hin Hlack; [destruct Hin |].
  simpl. destruct (lookup_entry r acc) as [acc' |] eqn:E; [| eauto].
  destruct Hin as [-> | Hin]; [| eapply IH; eauto].
  rewrite lookup_entry_lacking in E by exact Hlack. discriminate.
Qed.

Lemma comprehension_first_lacking pre : forall acc d post,
  forallb well_formed_resource pre = true ->
  assoc NAME_FIELD d = None \/ assoc URL_FIELD d = None ->
  dict_comprehension (pre ++ PDict d :: post) acc
  = Raise (KeyError (match assoc NAME_FIELD d with
                     | None => NAME_FIELD
                     | Some _ => URL_FIELD
                     end)).
Proof.
  induction pre as [| r pre IH]; intros acc d post Hwf Hlack; simpl.
  - rewrite lookup_entry_lacking by exact Hlack. reflexivity.
  - simpl in Hwf. apply andb_prop in Hwf. destruct Hwf as [Hr Hpre].
    destruct (well_formed_resource_fields r Hr) as (name & u & Hn & Hu).
    rewrite (lookup_entry_well_formed r acc name u Hn Hu).
    apply IH; assumption.
Qed.

(** The resolver on a 200 response whose body parses and has a
    ["result"] with a ["resources"] list: the comprehension over that
    list, after one request and one [resp.json()]. *)
Lemma form_lookup_on_resources
    (network : nat -> Session -> GetCall -> result Response)
    (id_str : string) (key : option string) (ckan_url : string)
    (session : Session) (n : nat) (resp : Response) (body meta : pyval)
    (rs : list pyval) :
  network n session (package_show_call id_str key ckan_url) = Ok resp ->
  status_code resp = 200 ->
  json resp = Ok body ->
  py_getitem body "result" = Ok meta ->
  py_getitem meta RESOURCES_FIELD = Ok (PList rs) ->
  _form_dataset_resources_lookup network id_str key ckan_url session n
  = (dict_comprehension rs [],
     [EvGet session (package_show_call id_str key ckan_url); EvJson]).
Proof.
  intros Hnet Hst Hjson Hres Hrs.
  rewrite (form_lookup_run network id_str key ckan_url session n meta
             [EvGet session (package_show_call id_str key ckan_url); EvJson]).
  - destruct meta; try discriminate Hrs. simpl is_None. cbv iota.
    rewrite Hrs. reflexivity.
  - rewrite get_dataset_metadata_run, Hnet, Hst, Hjson, Hres. reflexivity.
Qed.

(** ** Claims on the mapping *)

(** C2: on HTTP 200 with a metadata document whose resources are
    well-formed descriptors, the resolver returns a mapping (no error):
    its keys, none repeated, are exactly the resource names of the
    document, and a name maps to the URL of the last descriptor that
    bears it. *)
Theorem resolve_maps_names_to_last_url
    (network : nat -> Session -> GetCall -> result Response)
    (id_str : string) (key : option string) (ckan_url : string)
    (session : Session) (n : nat) (resp : Response) (body meta : pyval)
    (rs : list pyval) :
  network n session (package_show_call id_str key ckan_url) = Ok resp ->
  status_code resp = 200 ->
  json resp = Ok body ->
  py_getitem body "result" = Ok meta ->
  py_getitem meta RESOURCES_FIELD = Ok (PList rs) ->
  forallb well_formed_resource rs = true ->
  exists m : pydict,
    fst (_form_dataset_resources_lookup network id_str key ckan_url session n)
    = Ok m
    /\ (forall k, In k (dict_keys m) <->
                  exists name, k = PStr name /\ In name (resource_names rs))
    /\ NoDup (dict_keys m)
    /\ (forall pre r post name u,
          rs = (pre ++ r :: post)%list ->
          resource_name r = Some name ->
          resource_url r = Some u ->
          ~ In name (resource_names post) ->
          dict_get (PStr name) m = Some (PStr u)).
Proof.
  intros Hnet Hst Hjson Hres Hrs Hwf.
  rewrite (form_lookup_on_resources network id_str key ckan_url session n
             resp body meta rs Hnet Hst Hjson Hres Hrs).
  destruct (comprehension_well_formed rs [] Hwf)
    as (m & Hm & Hkeys & Hnd & Hlast & _).
  exists m. simpl fst. split; [exact Hm |].
  split; [| split; [apply Hnd; constructor | exact Hlast]].
  intros k. rewrite Hkeys. simpl. intuition.
Qed.

Lemma resolve_maps_names_to_last_url_witness :
  exists m : pydict,
    fst (_form_dataset_resources_lookup
           (serving (metadata_response (package_show_body sample_resources)))
           "billed-consumption-data" None COCT_CKAN_URL default_session 0%nat)
    = Ok m
    /\ dict_get (PStr "a") m = Some (PStr "http://x/a-v2.csv")
    /\ In (PStr "b-report") (dict_keys m).
Proof.
  destruct (resolve_maps_names_to_last_url
              (serving (metadata_response (package_show_body sample_resources)))
              "billed-consumption-data" None COCT_CKAN_URL default_session
              0%nat (metadata_response (package_show_body sample_resources))
              (package_show_body sample_resources)
              (PDict [("id", PStr "d1");
                      ("name", PStr "billed-consumption-data");
                      ("resources", PList sample_resources)])
              sample_resources
              eq_refl eq_refl eq_refl eq_refl eq_refl eq_refl)
    as (m & Hm & Hkeys & _ & Hlast).
  exists m. split; [exact Hm |]. split.
  - apply (Hlast (firstn 2 sample_resources)
             (PDict [("id", PStr "r3"); ("name", PStr "a");
                     ("url", PStr "http://x/a-v2.csv")])
             [] "a" "http://x/a-v2.csv"); try reflexivity.
    intros [].
  - apply Hkeys. exists "b-report". split; [reflexivity |].
    simpl. right. left. reflexivity.
Defined.

(** C10: on HTTP 200 with a JSON body, a body without a ["result"] field
    makes the metadata fetch, and so the resolver, raise the error of the
    failed subscription ([KeyError] on ["result"] when the body is an
    object); a resources list holding an object without ["name"] or
    ["url"] makes the resolver raise a subscription error as well
    ([KeyError] on the missing field when the descriptors before it are
    well formed).  In no such case does the resolver return a mapping or
    raise one of its own two [RuntimeError]s. *)
Theorem malformed_metadata_raises_lookup_error
    (network : nat -> Session -> GetCall -> result Response)
    (id_str : string) (key : option string) (ckan_url : string)
    (session : Session) (n : nat) (resp : Response) (body : pyval) :
  network n session (package_show_call id_str key ckan_url) = Ok resp ->
  status_code resp = 200 ->
  json resp = Ok body ->
  let fetched :=
    fst (_get_dataset_metadata network id_str key ckan_url session n) in
  let resolved :=
    fst (_form_dataset_resources_lookup network id_str key ckan_url session n) in
  (forall e, py_getitem body "result" = Raise e ->
     fetched = Raise e /\ resolved = Raise e /\ subscript_error e = true)
  /\ (forall d, body = PDict d -> assoc "result" d = None ->
        fetched = Raise (KeyError "result")
        /\ resolved = Raise (KeyError "result"))
  /\ (forall meta rs d,
        py_getitem body "result" = Ok meta ->
        py_getitem meta RESOURCES_FIELD = Ok (PList rs) ->
        In (PDict d) rs ->
        assoc NAME_FIELD d = None \/ assoc URL_FIELD d = None ->
        exists e, resolved = Raise e /\ subscript_error e = true)
  /\ (forall meta pre d post,
        py_getitem body "result" = Ok meta ->
        py_getitem meta RESOURCES_FIELD = Ok (PList (pre ++ PDict d :: post)) ->
        forallb well_formed_resource pre = true ->
        (assoc NAME_FIELD d = None -> resolved = Raise (KeyError "name"))
        /\ (assoc NAME_FIELD d <> None -> assoc URL_FIELD d = None ->
            resolved = Raise (KeyError "url"))).
Proof.
  intros Hnet Hst Hjson fetched resolved.
  assert (Hfail : forall e, py_getitem body "result" = Raise e ->
                    fetched = Raise e /\ resolved = Raise e).
  { intros e He.
    assert (Hrun : _get_dataset_metadata network id_str key ckan_url session n
                   = (Raise e, [EvGet session (package_show_call id_str key ckan_url);
                                EvJson])).
    { rewrite get_dataset_metadata_run, Hnet, Hst, Hjson, He. reflexivity. }
    unfold fetched, resolved.
    rewrite (form_lookup_raise network _ _ _ _ n _ _ Hrun), Hrun. auto. }
  split; [| split; [| split]].
  - intros e He. destruct (Hfail e He) as [H1 H2].
    repeat split; try assumption.
    unfold py_getitem in He. destruct body; try (injection He as <-; reflexivity).
    destruct (assoc "result" d); [discriminate | injection He as <-; reflexivity].
  - intros d -> Hd. apply Hfail. simpl. rewrite Hd. reflexivity.
  - intros meta rs d Hres Hrs Hin Hlack. unfold resolved.
    rewrite (form_lookup_on_resources network id_str key ckan_url session n
               resp body meta rs Hnet Hst Hjson Hres Hrs).
    simpl fst.
    destruct (comprehension_lacking rs [] d Hin Hlack) as [e He].
    exists e. split; [exact He |]. eapply comprehension_raises; eauto.
  - intros meta pre d post Hres Hrs Hwf. unfold resolved.
    rewrite (form_lookup_on_resources network id_str key ckan_url session n
               resp body meta _ Hnet Hst Hjson Hres Hrs).
    simpl fst. split.
    + intros Hname.
      rewrite (comprehension_first_lacking pre [] d post Hwf (or_introl Hname)).
      rewrite Hname. reflexivity.
    + intros Hname Hurl.
      rewrite (comprehension_first_lacking pre [] d post Hwf (or_intror Hurl)).
      destruct (assoc NAME_FIELD d); [reflexivity | congruence].
Qed.

Lemma malformed_metadata_raises_lookup_error_witness :
  fst (_form_dataset_resources_lookup
         (serving (metadata_response (PDict [("success", PBool false)])))
         "billed-consumption-data" None COCT_CKAN_URL default_session 0%nat)
  = Raise (KeyError "result")
  /\ fst (_form_dataset_resources_lookup
            (serving (metadata_response (package_show_body lacking_url)))
            "billed-consumption-data" None COCT_CKAN_URL default_session 0%nat)
     = Raise (KeyError "url").
Proof.
  split.
  - destruct (malformed_metadata_raises_lookup_error
                (serving (metadata_response (PDict [("success", PBool false)])))
                "billed-consumption-data" None COCT_CKAN_URL default_session
                0%nat (metadata_response (PDict [("success", PBool false)]))
                (PDict [("success", PBool false)]) eq_refl eq_refl eq_refl)
      as (_ & H & _).
    exact (proj2 (H _ eq_refl eq_refl)).
  - destruct (malformed_metadata_raises_lookup_error
                (serving (metadata_response (package_show_body lacking_url)))
                "billed-consumption-data" None COCT_CKAN_URL default_session
                0%nat (metadata_response (package_show_body lacking_url))
                (package_show_body lacking_url) eq_refl eq_refl eq_refl)
      as (_ & _ & _ & H).
    apply (H (PDict [("id", PStr "d1");
                     ("name", PStr "billed-consumption-data");
                     ("resources", PList lacking_url)])
             (firstn 1 lacking_url) [("name", PStr "b-report")] []
             eq_refl eq_refl eq_refl).
    + discriminate.
    + reflexivity.
Defined.

(** ** Case-insensitive header dicts *)

Lemma header_eqb_eq a b : header_eqb a b = true <-> lower a = lower b.
Proof. unfold header_eqb. apply String.eqb_eq. Qed.

Lemma lowered_keys_ci_set {A : Type} (k : string) (v : A) d x :
  In x (lowered_keys (ci_set k v d)) <-> In x (lowered_keys d) \/ x = lower k.
Proof.
  induction d as [| [k' v'] d IH]; simpl.
  - intuition.
  - destruct (header_eqb k' k) eqn:E; simpl.
    + apply header_eqb_eq in E. rewrite E. intuition.
    + fold (lowered_keys (ci_set k v d)). rewrite IH.
      fold (lowered_keys d). intuition.
Qed.

Lemma ci_set_unique {A : Type} (k : string) (v : A) d :
  NoDup (lowered_keys d) -> NoDup (lowered_keys (ci_set k v d)).
Proof.
  induction d as [| [k' v'] d IH]; simpl; intros Hnd.
  - constructor; [intros [] | constructor].
  - inversion Hnd as [| ? ? Hnotin Hnd']; subst.
    destruct (header_eqb k' k) eqn:E; simpl.
    + apply header_eqb_eq in E. rewrite <- E. constructor; assumption.
    + constructor; [| apply IH; exact Hnd'].
      intros Hin. apply lowered_keys_ci_set in Hin.
      destruct Hin as [Hin | Heq]; [contradiction |].
      apply header_eqb_eq in Heq. congruence.
Qed.

Lemma ci_update_unique {A : Type} (new : list (string * A)) : forall d,
  NoDup (lowered_keys d) -> NoDup (lowered_keys (ci_update d new)).
Proof.
  unfold ci_update.
  induction new as [| [k v] new IH]; intros d Hnd; simpl; [exact Hnd |].
  apply IH, ci_set_unique, Hnd.
Qed.

Lemma ci_get_absent k d :
  ~ In (lower k) (lowered_keys d) -> ci_get k (drop_none d) = None.
Proof.
  induction d as [| [k' v'] d IH]; simpl; intros Hnot; [reflexivity |].
  assert (Hk : header_eqb k' k = false).
  { destruct (header_eqb k' k) eqn:E; [| reflexivity].
    apply header_eqb_eq in E. exfalso. apply Hnot. left. exact E. }
  assert (Hd : ci_get k (drop_none d) = None).
  { apply IH. intros Hin. apply Hnot. right. exact Hin. }
  destruct v' as [x |]; simpl; [rewrite Hk |]; exact Hd.
Qed.

(** Setting a header to [v] in a dict without repeated keys and dropping
    the [None] values leaves [v] under that header: the value when there
    is one, nothing when [v] is [None]. *)
Lemma ci_get_drop_none_set k v d :
  NoDup (lowered_keys d) ->
  ci_get k (drop_none (ci_set k v d)) = v.
Proof.
  induction d as [| [k' v'] d IH]; simpl; intros Hnd.
  - destruct v as [x |]; simpl; [| reflexivity].
    unfold header_eqb. rewrite String.eqb_refl. reflexivity.
  - inversion Hnd as [| ? ? Hnotin Hnd']; subst.
    destruct (header_eqb k' k) eqn:E.
    + destruct v as [x |]; simpl.
      * unfold header_eqb. rewrite String.eqb_refl. reflexivity.
      * apply ci_get_absent. apply header_eqb_eq in E. rewrite <- E.
        exact Hnotin.
    + destruct v' as [x |]; simpl; [rewrite E |]; apply IH, Hnd'.
Qed.

Lemma sent_api_key_header s url_or_call key :
  get_headers url_or_call = [("X-CKAN-API-Key", key)] ->
  ci_get "X-CKAN-API-Key" (sent_headers s url_or_call) = key.
Proof.
  intros H. unfold sent_headers, merge_setting. rewrite H.
  change (ci_update (ci_update [] (session_headers s)) [("X-CKAN-API-Key", key)])
    with (ci_set "X-CKAN-API-Key" key (ci_update [] (session_headers s))).
  apply ci_get_drop_none_set, ci_update_unique. constructor.
Qed.

(** ** Claims on the headers and on the filter *)

(** C8: every request the metadata fetch and the fetcher make goes out
    with the [X-CKAN-API-Key] header exactly when an API key is given:
    under that header name (in any letter case) the sent headers hold the
    key when there is one and nothing when it is absent, whatever headers
    the session carries and whatever the network answers. *)
Theorem api_key_header_only_when_present
    (network : nat -> Session -> GetCall -> result Response)
    (retries factor : Z) (id_str ckan_url : string) (url : pyval)
    (session : Session) (key : option string) (n : nat) :
  let sends_key (sc : Session * GetCall) :=
    ci_get "X-CKAN-API-Key" (sent_headers (fst sc) (snd sc)) = key in
  Forall sends_key
    (gets (snd (_get_dataset_metadata network id_str key ckan_url session n)))
  /\ Forall sends_key
       (gets (snd (get_resource_file_with network retries factor session url
                     key n)))
  /\ gets (snd (_get_dataset_metadata network id_str key ckan_url session n))
     <> [].
Proof.
  intros sends_key.
  assert (Hmeta : gets (snd (_get_dataset_metadata network id_str key ckan_url
                               session n))
                  = [(session, package_show_call id_str key ckan_url)]).
  { rewrite get_dataset_metadata_run.
    destruct (network n session (package_show_call id_str key ckan_url))
      as [resp | e]; [| reflexivity].
    destruct (status_code resp =? 200).
    - destruct (json resp); reflexivity.
    - destruct (status_code resp =? 404); reflexivity. }
  split; [| split].
  - rewrite Hmeta. constructor; [| constructor].
    apply sent_api_key_header. reflexivity.
  - unfold get_resource_file_with.
    eapply Forall_impl; [| apply retry_loop_gets].
    intros sc ->. apply sent_api_key_header. reflexivity.
  - rewrite Hmeta. discriminate.
Qed.

Lemma api_key_header_only_when_present_witness :
  let lowercase_session :=
    {| session_headers := [("x-ckan-api-key", Some "session-level")] |} in
  Forall (fun sc => ci_get "X-CKAN-API-Key" (sent_headers (fst sc) (snd sc)) = None)
    (gets (snd (_get_resource_file always_down lowercase_session sample_url
                  None 0%nat)))
  /\ Forall (fun sc => ci_get "X-CKAN-API-Key" (sent_headers (fst sc) (snd sc))
                       = Some "secret")
       (gets (snd (_get_dataset_metadata (serving not_found_response)
                     "billed-consumption-data" (Some "secret") COCT_CKAN_URL
                     default_session 0%nat))).
Proof.
  intros lowercase_session. split.
  - exact (proj1 (proj2 (api_key_header_only_when_present always_down RETRIES
                           RETRY_DELAY_FACTOR "billed-consumption-data"
                           COCT_CKAN_URL sample_url lowercase_session None
                           0%nat))).
  - exact (proj1 (api_key_header_only_when_present (serving not_found_response)
                    RETRIES RETRY_DELAY_FACTOR "billed-consumption-data"
                    COCT_CKAN_URL sample_url default_session (Some "secret")
                    0%nat)).
Defined.

Lemma filter_resources_none items : filter_resources None items = Ok items.
Proof.
  induction items as [| [name u] items IH]; simpl; [reflexivity |].
  rewrite IH. reflexivity.
Qed.

(** C9: with a [re.compile] that agrees with the model on the modelled
    patterns, filtering the example mapping by [^a] keeps the resources
    named "a" and "ab", in the mapping's order, and drops "b-report"; and
    without a pattern (none given, or the empty one) every resource of
    every mapping is kept. *)
Theorem filter_keeps_matching_names
    (re_compile : string -> result (string -> bool)) :
  (forall p r, re_parse p = Some r -> re_compile p = Ok (re_search r)) ->
  assemble_resource_list re_compile (Some "^a") sample_mapping
  = Ok [(PStr "a", PStr "http://x/a.csv"); (PStr "ab", PStr "http://x/c.csv")]
  /\ (forall d, assemble_resource_list re_compile None d = Ok (dict_items d))
  /\ (forall d, assemble_resource_list re_compile (Some "") d = Ok (dict_items d)).
Proof.
  intros Hre. split; [| split].
  - unfold assemble_resource_list, compile_filter.
    rewrite (Hre "^a" (AtStart "a") eq_refl). reflexivity.
  - intros d. apply filter_resources_none.
  - intros d. apply filter_resources_none.
Qed.

Lemma filter_keeps_matching_names_witness :
  assemble_resource_list literal_re_compile (Some "^a") sample_mapping
  = Ok [(PStr "a", PStr "http://x/a.csv"); (PStr "ab", PStr "http://x/c.csv")].
Proof.
  apply (filter_keeps_matching_names literal_re_compile).
  intros p r H. unfold literal_re_compile. rewrite H. reflexivity.
Defined.

(** * Further properties of the script *)

(** ** The resolver, beyond the claims *)

(** X1: a transport error of the metadata request is not retried: the
    metadata fetch and the resolver raise it after that single request,
    and a run of the script stops on it. *)
Theorem metadata_transport_error_is_not_retried
    (network : nat -> Session -> GetCall -> result Response)
    (re_compile : string -> result (string -> bool))
    (path_exists : string -> bool)
    (url_filename : pyval -> result string)
    (open_wb : string -> string -> result unit)
    (args : Args) (session : Session) (n : nat) (e : exn) :
  let call := package_show_call (dataset_id args) (ckan_api_key args)
                (ckan_url args) in
  network n session call = Raise e ->
  path_exists (destination_dir args) = true ->
  _get_dataset_metadata network (dataset_id args) (ckan_api_key args)
    (ckan_url args) session n = (Raise e, [EvGet session call])
  /\ _form_dataset_resources_lookup network (dataset_id args)
       (ckan_api_key args) (ckan_url args) session n
     = (Raise e, [EvGet session call])
  /\ (let run := main network re_compile path_exists url_filename open_wb
                   args session n in
      fst run = Raise e /\ gets (snd run) = [(session, call)]
      /\ sleeps (snd run) = [] /\ writes (snd run) = []).
Proof.
  intros call Hnet Hp.
  assert (Hmeta : _get_dataset_metadata network (dataset_id args)
                    (ckan_api_key args) (ckan_url args) session n
                  = (Raise e, [EvGet session call])).
  { rewrite get_dataset_metadata_run. fold call. rewrite Hnet. reflexivity. }
  pose proof (form_lookup_raise network _ _ _ _ n _ _ Hmeta) as Hform.
  split; [exact Hmeta |]. split; [exact Hform |].
  rewrite (main_stops_when_resolution_raises network re_compile path_exists
             url_filename open_wb args session n _ _ Hp Hform).
  repeat split.
Qed.

Lemma metadata_transport_error_is_not_retried_witness :
  let run := main always_down literal_re_compile (fun _ => true)
               (fun _ => Ok "f") (fun _ _ => Ok tt)
               sample_args default_session 0%nat in
  fst run = Raise (attempt_error 0) /\ List.length (gets (snd run)) = 1%nat.
Proof.
  destruct (metadata_transport_error_is_not_retried always_down
              literal_re_compile (fun _ => true) (fun _ => Ok "f")
              (fun _ _ => Ok tt) sample_args default_session 0%nat
              (attempt_error 0) eq_refl eq_refl) as (_ & _ & H1 & H2 & _).
  split; [exact H1 |]. rewrite H2. reflexivity.
Defined.

(** X2: on HTTP 200, an error of [resp.json()] (a body that is not JSON)
    is raised as it is by the metadata fetch and by the resolver, after
    the request and the one parse. *)
Theorem undecodable_body_raises_decode_error
    (network : nat -> Session -> GetCall -> result Response)
    (id_str : string) (key : option string) (ckan_url : string)
    (session : Session) (n : nat) (resp : Response) (e : exn) :
  let call := package_show_call id_str key ckan_url in
  network n session call = Ok resp ->
  status_code resp = 200 ->
  json resp = Raise e ->
  _get_dataset_metadata network id_str key ckan_url session n
  = (Raise e, [EvGet session call; EvJson])
  /\ _form_dataset_resources_lookup network id_str key ckan_url session n
     = (Raise e, [EvGet session call; EvJson]).
Proof.
  intros call Hnet Hst Hjson.
  assert (Hmeta : _get_dataset_metadata network id_str key ckan_url session n
                  = (Raise e, [EvGet session call; EvJson])).
  { rewrite get_dataset_metadata_run. fold call.
    rewrite Hnet, Hst, Hjson. reflexivity. }
  split; [exact Hmeta | exact (form_lookup_raise network _ _ _ _ n _ _ Hmeta)].
Qed.

Lemma undecodable_body_raises_decode_error_witness :
  fst (_form_dataset_resources_lookup (serving file_response)
         "billed-consumption-data" None COCT_CKAN_URL default_session 0%nat)
  = Raise JSONDecodeError.
Proof.
  destruct (undecodable_body_raises_decode_error (serving file_response)
              "billed-consumption-data" None COCT_CKAN_URL default_session
              0%nat file_response JSONDecodeError eq_refl eq_refl eq_refl)
    as [_ H].
  rewrite H. reflexivity.
Defined.

(** X3: an HTTP 200 whose ["result"] is [null] is taken for an unknown
    dataset: the metadata fetch returns [None] and the resolver raises
    the same [RuntimeError] as after an unexpected status. *)
Theorem null_result_is_unavailable
    (network : nat -> Session -> GetCall -> result Response)
    (id_str : string) (key : option string) (ckan_url : string)
    (session : Session) (n : nat) (resp : Response) (body : pyval) :
  let call := package_show_call id_str key ckan_url in
  network n session call = Ok resp ->
  status_code resp = 200 ->
  json resp = Ok body ->
  py_getitem body "result" = Ok PNone ->
  fst (_get_dataset_metadata network id_str key ckan_url session n) = Ok PNone
  /\ _form_dataset_resources_lookup network id_str key ckan_url session n
     = (Raise (RuntimeError ("I don't know what to do with '" ++ id_str
                             ++ "' - it doesn't exist")),
        [EvGet session call; EvJson]).
Proof.
  intros call Hnet Hst Hjson Hres.
  assert (Hmeta : _get_dataset_metadata network id_str key ckan_url session n
                  = (Ok PNone, [EvGet session call; EvJson])).
  { rewrite get_dataset_metadata_run. fold call.
    rewrite Hnet, Hst, Hjson, Hres. reflexivity. }
  split; [rewrite Hmeta; reflexivity |].
  rewrite (form_lookup_run network _ _ _ _ n _ _ Hmeta). reflexivity.
Qed.

Lemma null_result_is_unavailable_witness :
  fst (_form_dataset_resources_lookup
         (serving (metadata_response (PDict [("success", PBool true);
                                             ("result", PNone)])))
         "billed-consumption-data" None COCT_CKAN_URL default_session 0%nat)
  = Raise (RuntimeError
      "I don't know what to do with 'billed-consumption-data' - it doesn't exist").
Proof.
  destruct (null_result_is_unavailable
              (serving (metadata_response (PDict [("success", PBool true);
                                                  ("result", PNone)])))
              "billed-consumption-data" None COCT_CKAN_URL default_session
              0%nat
              (metadata_response (PDict [("success", PBool true);
                                         ("result", PNone)]))
              (PDict [("success", PBool true); ("result", PNone)])
              eq_refl eq_refl eq_refl eq_refl) as [_ H].
  rewrite H. reflexivity.
Defined.

(** X4: a metadata document (not [null]) that cannot be subscripted by
    ["resources"] makes the resolver raise that subscription's error:
    [KeyError] on ["resources"] for an object without the field,
    [TypeError] for a document that is not an object; and a
    ["resources"] that is [null], a boolean or a number is not iterable:
    [TypeError]. *)
Theorem missing_resources_raises
    (network : nat -> Session -> GetCall -> result Response)
    (id_str : string) (key : option string) (ckan_url : string)
    (session : Session) (n : nat) (resp : Response) (body meta : pyval) :
  network n session (package_show_call id_str key ckan_url) = Ok resp ->
  status_code resp = 200 ->
  json resp = Ok body ->
  py_getitem body "result" = Ok meta ->
  meta <> PNone ->
  let resolved :=
    fst (_form_dataset_resources_lookup network id_str key ckan_url session n) in
  (forall d, meta = PDict d -> assoc "resources" d = None ->
     resolved = Raise (KeyError "resources"))
  /\ ((forall d, meta <> PDict d) -> resolved = Raise TypeError)
  /\ (forall resources,
        py_getitem meta "resources" = Ok resources ->
        py_iter resources = Raise TypeError ->
        resolved = Raise TypeError).
Proof.
  intros Hnet Hst Hjson Hres Hnone resolved.
  assert (Hmeta : _get_dataset_metadata network id_str key ckan_url session n
                  = (Ok meta, [EvGet session (package_show_call id_str key ckan_url);
                               EvJson])).
  { rewrite get_dataset_metadata_run, Hnet, Hst, Hjson, Hres. reflexivity. }
  unfold resolved. rewrite (form_lookup_run network _ _ _ _ n _ _ Hmeta).
  simpl fst.
  assert (HN : is_None meta = false) by (destruct meta; simpl; congruence).
  rewrite HN. split; [| split].
  - intros d -> Hd. simpl. unfold RESOURCES_FIELD. rewrite Hd. reflexivity.
  - intros Hnd. destruct meta; try reflexivity. exfalso. eapply Hnd; eauto.
  - intros resources Hr Hit. unfold RESOURCES_FIELD. rewrite Hr, Hit.
    reflexivity.
Qed.

Lemma missing_resources_raises_witness :
  fst (_form_dataset_resources_lookup
         (serving (metadata_response
                     (PDict [("result", PDict [("name", PStr "d")])])))
         "billed-consumption-data" None COCT_CKAN_URL default_session 0%nat)
  = Raise (KeyError "resources").
Proof.
  destruct (missing_resources_raises
              (serving (metadata_response
                          (PDict [("result", PDict [("name", PStr "d")])])))
              "billed-consumption-data" None COCT_CKAN_URL default_session
              0%nat
              (metadata_response
                 (PDict [("result", PDict [("name", PStr "d")])]))
              (PDict [("result", PDict [("name", PStr "d")])])
              (PDict [("name", PStr "d")])
              eq_refl eq_refl eq_refl eq_refl) as (H & _).
  - discriminate.
  - exact (H _ eq_refl eq_refl).
Defined.

(** X5: whatever the network answers, the resolver makes exactly one
    request (the metadata lookup), parses at most one body, and neither
    sleeps nor writes. *)
Theorem resolver_makes_one_request
    (network : nat -> Session -> GetCall -> result Response)
    (id_str : string) (key : option string) (ckan_url : string)
    (session : Session) (n : nat) :
  let t := snd (_form_dataset_resources_lookup network id_str key ckan_url
                  session n) in
  gets t = [(session, package_show_call id_str key ckan_url)]
  /\ (json_calls t <= 1)%nat
  /\ sleeps t = []
  /\ writes t = [].
Proof.
  intros t. subst t.
  destruct (_get_dataset_metadata network id_str key ckan_url session n)
    as [[meta | e] t0] eqn:Hmeta.
  - rewrite (form_lookup_run network _ _ _ _ n _ _ Hmeta). simpl snd.
    rewrite get_dataset_metadata_run in Hmeta.
    destruct (network n session (package_show_call id_str key ckan_url))
      as [resp | e']; [| discriminate].
    destruct (status_code resp =? 200).
    + destruct (json resp); injection Hmeta as _ <-;
        repeat split; simpl; auto.
    + destruct (status_code resp =? 404); injection Hmeta as _ <-;
        repeat split; simpl; auto.
  - rewrite (form_lookup_raise network _ _ _ _ n _ _ Hmeta). simpl snd.
    rewrite get_dataset_metadata_run in Hmeta.
    destruct (network n session (package_show_call id_str key ckan_url))
      as [resp | e'].
    + destruct (status_code resp =? 200).
      * destruct (json resp); injection Hmeta as _ <-;
          repeat split; simpl; auto.
      * destruct (status_code resp =? 404); injection Hmeta as _ <-;
          repeat split; simpl; auto.
    + injection Hmeta as _ <-. repeat split; simpl; auto.
Qed.

(** ** Running the orchestration *)

Lemma bind_ret_run {A B} (a : A) (k : A -> M B) n : bind (ret a) k n = k a n.
Proof.
  unfold bind, ret. simpl. rewrite Nat.add_0_r. destruct (k a n). reflexivity.
Qed.

Lemma bind_lift_ok_run {A B} (a : A) (k : A -> M B) n :
  bind (lift (Ok a)) k n = k a n.
Proof.
  unfold bind, lift. simpl. rewrite Nat.add_0_r. destruct (k a n). reflexivity.
Qed.

Lemma bind_lift_raise_run {A B} (e : exn) (k : A -> M B) n :
  bind (lift (Raise e)) k n = (Raise e, []).
Proof. reflexivity. Qed.

Lemma bind_log_run {B} (msg : string) (k : unit -> M B) n :
  bind (logging_debug msg) k n
  = (fst (k tt n), EvLog DEBUG msg :: snd (k tt n)).
Proof.
  unfold bind, logging_debug, emit. simpl. rewrite Nat.add_0_r.
  destruct (k tt n). reflexivity.
Qed.

Lemma bind_write_run {B} (dir f data : string) (k : unit -> M B) n :
  bind (emit (EvWrite dir f data)) k n
  = (fst (k tt n), EvWrite dir f data :: snd (k tt n)).
Proof.
  unfold bind, emit. simpl. rewrite Nat.add_0_r.
  destruct (k tt n). reflexivity.
Qed.

Lemma bind_ok_run {A B} (c : M A) (k : A -> M B) n a t :
  c n = (Ok a, t) ->
  bind c k n
  = (fst (k a (n + List.length (gets t))%nat),
     (t ++ snd (k a (n + List.length (gets t))%nat))%list).
Proof.
  intros H. unfold bind. rewrite H.
  destruct (k a (n + List.length (gets t))%nat). reflexivity.
Qed.

Section RunningMain.

Variable network : nat -> Session -> GetCall -> result Response.
Variable re_compile : string -> result (string -> bool).
Variable path_exists : string -> bool.
Variable url_filename : pyval -> result string.
Variable open_wb : string -> string -> result unit.
Variable args : Args.
Variable s : Session.

Let download := download_all network url_filename open_wb args s.
Let fetch := _get_resource_file network s.

(** One resource of the download loop, case by case. *)
Lemma download_all_cons name url rest n :
  download ((name, url) :: rest) n =
    match url_filename url with
    | Raise e => (Raise e, [])
    | Ok filename =>
        match fetch url (ckan_api_key args) n with
        | (Raise e, t) => (Raise e, t)
        | (Ok http_resp, t) =>
            if status_code http_resp =? 200 then
              match open_wb (destination_dir args) filename with
              | Raise e => (Raise e, t)
              | Ok _ =>
                  (fst (download rest (n + List.length (gets t))%nat),
                   (t ++ EvWrite (destination_dir args) filename
                           (content http_resp)
                        :: snd (download rest (n + List.length (gets t))%nat))%list)
              end
            else (Raise AssertionError, t)
        end
    end.
Proof.
  unfold download, fetch.
  change (download_all network url_filename open_wb args s ((name, url) :: rest))
    with (bind (lift (url_filename url))
            (fun filename =>
               bind (_get_resource_file network s url (ckan_api_key args))
                 (fun http_resp =>
                    bind (if status_code http_resp =? 200 then ret tt
                          else raise AssertionError)
                      (fun _ =>
                         bind (lift (open_wb (destination_dir args) filename))
                           (fun _ =>
                              bind (emit (EvWrite (destination_dir args) filename
                                            (content http_resp)))
                                (fun _ => download_all network url_filename
                                            open_wb args s rest)))))).
  destruct (url_filename url) as [filename | e]; [| reflexivity].
  rewrite bind_lift_ok_run. unfold bind at 1.
  destruct (_get_resource_file network s url (ckan_api_key args) n)
    as [[http_resp | e] t]; [| reflexivity].
  destruct (status_code http_resp =? 200).
  - rewrite bind_ret_run.
    destruct (open_wb (destination_dir args) filename) as [u | e].
    + rewrite bind_lift_ok_run, bind_write_run. reflexivity.
    + rewrite bind_lift_raise_run, app_nil_r. reflexivity.
  - unfold bind, raise. rewrite app_nil_r. reflexivity.
Qed.

(** The run of [main] once the destination exists and the resolver has
    returned a mapping. *)
Lemma main_after_resolution n m t0 :
  path_exists (destination_dir args) = true ->
  _form_dataset_resources_lookup network (dataset_id args) (ckan_api_key args)
    (ckan_url args) s n = (Ok m, t0) ->
  main network re_compile path_exists url_filename open_wb args s n =
    let before :=
      (EvLog DEBUG ("Looking up resources for " ++ dataset_id args) :: t0
       ++ [EvLog DEBUG ("len(resources_dict)="
                        ++ string_of_Z (Z.of_nat (List.length m)));
           EvLog DEBUG "Assembling list of resources"])%list in
    match assemble_resource_list re_compile (resource_name_regex args) m with
    | Raise e => (Raise e, before)
    | Ok resource_list =>
        (fst (download resource_list (n + List.length (gets t0))%nat),
         (before
          ++ [EvLog DEBUG ("len(resource_list)="
                           ++ string_of_Z (Z.of_nat (List.length resource_list)));
              EvLog DEBUG "Iterating over list of responses"]
          ++ snd (download resource_list (n + List.length (gets t0))%nat))%list)
    end.
Proof.
  intros Hp Hform. unfold main. rewrite Hp, bind_ret_run, bind_log_run.
  rewrite (bind_ok_run _ _ n m t0 Hform).
  rewrite !bind_log_run.
  destruct (assemble_resource_list re_compile (resource_name_regex args) m)
    as [resource_list | e].
  - rewrite bind_lift_ok_run, !bind_log_run. cbn [fst snd].
    unfold download. cbv zeta. f_equal.
    rewrite <- app_comm_cons, <- app_assoc. reflexivity.
  - rewrite bind_lift_raise_run. cbn [fst snd]. reflexivity.
Qed.

End RunningMain.

(** The fetcher of the script when its first attempt completes, and when
    its three attempts raise. *)
Lemma fetch_first_attempt_ok
    (network : nat -> Session -> GetCall -> result Response)
    (s : Session) (url : pyval) (key : option string) (n : nat)
    (resp : Response) :
  network n s (resource_call url key) = Ok resp ->
  _get_resource_file network s url key n
  = (Ok resp, [EvGet s (resource_call url key)]).
Proof.
  intros H. unfold _get_resource_file, get_resource_file_with.
  change (py_range RETRIES) with [0; 1; 2].
  apply retry_step_ok. exact H.
Qed.

Lemma fetch_three_attempts_raise
    (network : nat -> Session -> GetCall -> result Response)
    (s : Session) (url : pyval) (key : option string) (n : nat)
    (errs : nat -> exn) :
  (forall i, (i < 3)%nat ->
     network (n + i)%nat s (resource_call url key) = Raise (errs i)
     /\ derives_from_Exception (errs i) = true) ->
  _get_resource_file network s url key n
  = (Raise (errs 2%nat),
     flat_map (failed_attempt RETRY_DELAY_FACTOR s url key) [0; 1; 2]).
Proof.
  intros H. unfold _get_resource_file, get_resource_file_with.
  change (py_range RETRIES) with [0; 1; 2].
  rewrite (retry_exhausted network RETRY_DELAY_FACTOR s url key [0; 1; 2]
             errs None n).
  - reflexivity.
  - unfold RETRY_DELAY_FACTOR. lia.
  - repeat constructor; lia.
  - exact H.
Qed.

(** ** The fetcher, beyond the claims *)

(** The first [k] attempts raise an [Exception] and the next one raises
    something [except Exception] does not catch. *)
Lemma retry_until_escape
    (network : nat -> Session -> GetCall -> result Response)
    (factor : Z) (s : Session) (url : pyval) (key : option string) (k : nat) :
  forall ts (errs : nat -> exn) last n e,
  0 <= factor ->
  Forall (fun t => 0 <= t) ts ->
  (k < List.length ts)%nat ->
  (forall i, (i < k)%nat ->
     network (n + i)%nat s (resource_call url key) = Raise (errs i)
     /\ derives_from_Exception (errs i) = true) ->
  network (n + k)%nat s (resource_call url key) = Raise e ->
  derives_from_Exception e = false ->
  retry_loop network factor s url key ts last n =
    (Raise e,
     (flat_map (failed_attempt factor s url key) (firstn k ts)
      ++ [EvGet s (resource_call url key)])%list).
Proof.
  induction k as [| k IH]; intros ts errs last n e Hf Hts Hk Hnet He Hd.
  - destruct ts as [| t ts]; [simpl in Hk; lia |].
    rewrite Nat.add_0_r in He. apply retry_step_escape; assumption.
  - destruct ts as [| t ts]; [simpl in Hk; lia |].
    inversion Hts as [| ? ? Ht Hts']; subst.
    destruct (Hnet O) as [H0 D0]; [lia |].
    rewrite Nat.add_0_r in H0.
    rewrite (retry_step_fail network factor s url key t ts last n (errs O) H0 D0)
      by nia.
    rewrite (IH ts (fun i => errs (S i)) (Some (errs O)) (S n) e Hf Hts').
    + reflexivity.
    + simpl in Hk. lia.
    + intros i Hi. replace (S n + i)%nat with (n + S i)%nat by lia.
      apply Hnet. lia.
    + replace (S n + k)%nat with (n + S k)%nat by lia. exact He.
    + exact Hd.
Qed.

(** X6: an error that does not derive from [Exception] (an interrupt, an
    exit) is not caught: raised at attempt [k], it leaves the fetcher at
    once, after [k + 1] requests and [k] sleeps, without the sleep and
    the further attempts a transport error would get. *)
Theorem fetch_lets_base_exceptions_through
    (network : nat -> Session -> GetCall -> result Response)
    (retries factor : Z) (s : Session) (url : pyval) (key : option string)
    (n k : nat) (errs : nat -> exn) (e : exn) :
  0 <= factor ->
  (k < Z.to_nat retries)%nat ->
  (forall i, (i < k)%nat ->
     network (n + i)%nat s (resource_call url key) = Raise (errs i)
     /\ derives_from_Exception (errs i) = true) ->
  network (n + k)%nat s (resource_call url key) = Raise e ->
  derives_from_Exception e = false ->
  let out := get_resource_file_with network retries factor s url key n in
  fst out = Raise e
  /\ List.length (gets (snd out)) = S k
  /\ List.length (sleeps (snd out)) = k
  /\ List.last (snd out) EvJson = EvGet s (resource_call url key).
Proof.
  intros Hf Hk Hnet He Hd out. subst out. unfold get_resource_file_with.
  rewrite (retry_until_escape network factor s url key k (py_range retries)
             errs None n e Hf (py_range_nonneg retries));
    [| rewrite py_range_length; exact Hk | exact Hnet | exact He | exact Hd].
  simpl fst. simpl snd. split; [reflexivity |].
  assert (Hlen : List.length (firstn k (py_range retries)) = k).
  { rewrite length_firstn, py_range_length. lia. }
  rewrite gets_app, sleeps_app, gets_failed_attempts, sleeps_failed_attempts.
  rewrite !length_app, repeat_length, length_map, Hlen.
  split; [simpl; lia |]. split; [simpl; lia |]. apply last_last.
Qed.

Lemma fetch_lets_base_exceptions_through_witness :
  _get_resource_file (fun _ _ _ => Raise KeyboardInterrupt) default_session
    sample_url None 0%nat
  = (Raise KeyboardInterrupt,
     [EvGet default_session (resource_call sample_url None)]).
Proof.
  destruct (fetch_lets_base_exceptions_through
              (fun _ _ _ => Raise KeyboardInterrupt) RETRIES RETRY_DELAY_FACTOR
              default_session sample_url None 0%nat 0%nat attempt_error
              KeyboardInterrupt) as (H1 & _).
  - unfold RETRY_DELAY_FACTOR. lia.
  - unfold RETRIES. lia.
  - intros i Hi. inversion Hi.
  - reflexivity.
  - reflexivity.
  - reflexivity.
Defined.

(** The loop over [ts], whatever the network does: no more requests than
    indices, and the sleeps are the first ones of the schedule, each after
    a request. *)
Lemma retry_loop_bounds
    (network : nat -> Session -> GetCall -> result Response)
    (factor : Z) (s : Session) (url : pyval) (key : option string) ts :
  forall last n,
  let t := snd (retry_loop network factor s url key ts last n) in
  (List.length (gets t) <= List.length ts)%nat
  /\ (exists k, (k <= List.length (gets t))%nat
                /\ sleeps t = map (fun i => factor * (i + 1)) (firstn k ts))
  /\ json_calls t = 0%nat
  /\ writes t = [].
Proof.
  induction ts as [| i ts IH]; intros last n.
  - rewrite retry_loop_nil. simpl. repeat split; auto. exists O. auto.
  - rewrite retry_loop_cons.
    unfold bind, try_except, session_get.
    destruct (network n s (resource_call url key)) as [resp | e].
    + simpl. repeat split; auto; try lia. exists O. split; [lia | reflexivity].
    + destruct (derives_from_Exception e).
      2:{ simpl. repeat split; auto; try lia. exists O.
          split; [lia | reflexivity]. }
      unfold logging_debug, time_sleep, emit.
      destruct (factor * (i + 1) <? 0).
      * simpl. repeat split; auto; try lia. exists O.
        split; [lia | reflexivity].
      * match goal with
        | |- context [retry_loop network factor s url key ts (Some e) ?m] =>
            specialize (IH (Some e) m);
            destruct (retry_loop network factor s url key ts (Some e) m)
              as [r tr]
        end.
        simpl in IH. destruct IH as (Hg & (k & Hk & Hs) & Hj & Hw).
        simpl. split; [lia |]. split; [| split; assumption].
        exists (S k). split; [lia |]. simpl. rewrite Hs. reflexivity.
Qed.

(** X7: whatever the network does, the fetcher makes at least one and at
    most [retries] requests (for a positive [retries]), all of them the
    same call; its sleeps are the first ones of the schedule
    [factor * 1, factor * 2, ...], never more than the requests made; it
    parses no body and writes no file. *)
Theorem fetch_effects_are_bounded
    (network : nat -> Session -> GetCall -> result Response)
    (retries factor : Z) (s : Session) (url : pyval) (key : option string)
    (n : nat) :
  let t := snd (get_resource_file_with network retries factor s url key n) in
  (List.length (gets t) <= Z.to_nat retries)%nat
  /\ (0 < retries -> gets t <> [])
  /\ Forall (fun sc => sc = (s, resource_call url key)) (gets t)
  /\ (exists k, (k <= List.length (gets t))%nat
                /\ sleeps t = map (fun i => factor * (i + 1))
                                (firstn k (py_range retries)))
  /\ json_calls t = 0%nat
  /\ writes t = [].
Proof.
  intros t. subst t. unfold get_resource_file_with.
  destruct (retry_loop_bounds network factor s url key (py_range retries)
              None n) as (Hg & Hs & Hj & Hw).
  rewrite py_range_length in Hg.
  split; [exact Hg |]. split; [| split; [| repeat split; assumption]].
  - intros Hr. unfold py_range.
    destruct (Z.to_nat retries) as [| m] eqn:E; [lia |].
    simpl seq. simpl map. rewrite retry_loop_cons.
    unfold bind, try_except, session_get.
    destruct (network n s (resource_call url key)) as [resp | e];
      [simpl; discriminate |].
    destruct (derives_from_Exception e); [| simpl; discriminate].
    match goal with
    | |- context [let (r0, t') := ?c in _] => destruct c as [r0 t']
    end.
    simpl. discriminate.
  - apply retry_loop_gets.
Qed.

Lemma fetch_effects_are_bounded_witness :
  let t := snd (_get_resource_file (up_after 1 file_response) default_session
                  sample_url None 0%nat) in
  (List.length (gets t) <= 3)%nat /\ gets t <> [].
Proof.
  destruct (fetch_effects_are_bounded (up_after 1 file_response) RETRIES
              RETRY_DELAY_FACTOR default_session sample_url None 0%nat)
    as (H1 & H2 & _).
  split; [exact H1 |]. apply H2. unfold RETRIES. lia.
Defined.

Lemma total_sleep_app l1 l2 :
  total_sleep (l1 ++ l2) = total_sleep l1 + total_sleep l2.
Proof.
  unfold total_sleep. induction l1 as [| x l1 IH]; simpl; [reflexivity |].
  rewrite IH. lia.
Qed.

Lemma total_sleep_schedule factor (m : nat) :
  2 * total_sleep (map (fun i => factor * (i + 1)) (map Z.of_nat (seq 0 m)))
  = factor * Z.of_nat m * (Z.of_nat m + 1).
Proof.
  induction m as [| m IH].
  - simpl. lia.
  - rewrite seq_S, !map_app, total_sleep_app. simpl map.
    unfold total_sleep at 2. simpl fold_right.
    rewrite Nat2Z.inj_succ. nia.
Qed.

(** X8: a fetch that exhausts its [retries] attempts has slept
    [factor * retries * (retries + 1) / 2] seconds in all before it
    raises: 60 seconds with the script's constants. *)
Theorem fetch_exhausted_total_sleep
    (network : nat -> Session -> GetCall -> result Response)
    (retries factor : Z) (s : Session) (url : pyval) (key : option string)
    (n : nat) (errs : nat -> exn) :
  0 <= retries ->
  0 <= factor ->
  (forall i, (i < Z.to_nat retries)%nat ->
     network (n + i)%nat s (resource_call url key) = Raise (errs i)
     /\ derives_from_Exception (errs i) = true) ->
  2 * total_sleep
        (sleeps (snd (get_resource_file_with network retries factor s url
                        key n)))
  = factor * retries * (retries + 1).
Proof.
  intros Hr Hf Hnet. unfold get_resource_file_with.
  rewrite (retry_exhausted network factor s url key (py_range retries)
             errs None n Hf (py_range_nonneg retries)).
  - simpl snd. rewrite sleeps_failed_attempts. unfold py_range.
    rewrite total_sleep_schedule. rewrite Z2Nat.id by exact Hr. reflexivity.
  - rewrite py_range_length. exact Hnet.
Qed.

Lemma fetch_exhausted_total_sleep_witness :
  total_sleep
    (sleeps (snd (_get_resource_file always_down default_session sample_url
                    None 0%nat)))
  = 60.
Proof.
  pose proof (fetch_exhausted_total_sleep always_down RETRIES
                RETRY_DELAY_FACTOR default_session sample_url None 0%nat
                attempt_error) as H.
  unfold _get_resource_file.
  assert (H0 : 0 <= RETRIES) by (unfold RETRIES; lia).
  assert (H1 : 0 <= RETRY_DELAY_FACTOR) by (unfold RETRY_DELAY_FACTOR; lia).
  specialize (H H0 H1 (fun i _ => conj eq_refl eq_refl)).
  unfold RETRIES, RETRY_DELAY_FACTOR in *. lia.
Defined.

(** X9: with no attempt allowed ([retries] zero or negative) the loop
    body never runs: no request is made and [raise last_exception], with
    [last_exception] still [None], is a [TypeError]. *)
Theorem fetch_without_attempts_raises_type_error
    (network : nat -> Session -> GetCall -> result Response)
    (retries factor : Z) (s : Session) (url : pyval) (key : option string)
    (n : nat) :
  retries <= 0 ->
  get_resource_file_with network retries factor s url key n
  = (Raise TypeError, []).
Proof.
  intros Hr. unfold get_resource_file_with, py_range.
  replace (Z.to_nat retries) with O by lia. reflexivity.
Qed.

Lemma fetch_without_attempts_raises_type_error_witness :
  get_resource_file_with (serving file_response) 0 RETRY_DELAY_FACTOR
    default_session sample_url None 0%nat
  = (Raise TypeError, []).
Proof.
  apply (fetch_without_attempts_raises_type_error (serving file_response) 0
           RETRY_DELAY_FACTOR default_session sample_url None 0%nat).
  lia.
Defined.

(** ** The mapping, beyond the claims *)

Lemma comprehension_snoc rs : forall r acc,
  dict_comprehension (rs ++ [r]) acc =
    match dict_comprehension rs acc with
    | Ok m => lookup_entry r m
    | Raise e => Raise e
    end.
Proof.
  induction rs as [| r0 rs IH]; intros r acc; simpl.
  - destruct (lookup_entry r acc); reflexivity.
  - destruct (lookup_entry r0 acc) as [acc' | e]; [apply IH | reflexivity].
Qed.

Lemma dict_keys_set_listed name v d : forall ks,
  dict_keys d = map PStr ks ->
  dict_keys (dict_set (PStr name) v d)
  = map PStr (if in_dec string_dec name ks then ks else (ks ++ [name])%list).
Proof.
  induction d as [| [k' v'] d IH]; intros ks Hks.
  - destruct ks; [| discriminate]. reflexivity.
  - destruct ks as [| a ks]; [discriminate |].
    simpl in Hks. injection Hks as -> Hks. simpl dict_set. simpl py_key_eqb.
    destruct (String.eqb_spec a name) as [-> | Hne].
    + destruct (in_dec string_dec name (name :: ks)) as [_ | Hnin];
        [| exfalso; apply Hnin; left; reflexivity].
      unfold dict_keys in *. simpl. rewrite Hks. reflexivity.
    + simpl dict_keys. fold (dict_keys (dict_set (PStr name) v d)).
      rewrite (IH ks Hks).
      destruct (in_dec string_dec name (a :: ks)) as [Hin | Hnin];
        destruct (in_dec string_dec name ks) as [Hin' | Hnin'].
      * reflexivity.
      * destruct Hin as [-> | Hin]; [congruence | contradiction].
      * exfalso. apply Hnin. right. exact Hin'.
      * reflexivity.
Qed.

Lemma resource_names_length rs :
  (List.length (resource_names rs) <= List.length rs)%nat.
Proof.
  induction rs as [| r rs IH]; simpl; [lia |].
  destruct (resource_name r); simpl; lia.
Qed.

Lemma first_occurrences_snoc names name :
  first_occurrences (names ++ [name])
  = if in_dec string_dec name (first_occurrences names)
    then first_occurrences names
    else (first_occurrences names ++ [name])%list.
Proof.
  unfold first_occurrences. rewrite rev_app_distr. simpl.
  destruct (in_dec string_dec name (rev names)) as [Hin | Hnin];
    destruct (in_dec string_dec name (rev (nodup string_dec (rev names))))
      as [Hin' | Hnin']; try reflexivity.
  - exfalso. apply Hnin'. apply -> in_rev. apply nodup_In. exact Hin.
  - exfalso. apply Hnin. apply <- in_rev in Hin'.
    apply nodup_In in Hin'. exact Hin'.
Qed.

Lemma first_occurrences_length names :
  (List.length (first_occurrences names) <= List.length names)%nat.
Proof.
  unfold first_occurrences. rewrite length_rev.
  rewrite <- (length_rev names).
  apply NoDup_incl_length; [apply NoDup_nodup |].
  intros x Hx. apply nodup_In in Hx. exact Hx.
Qed.

Lemma comprehension_keys_in_order rs :
  forallb well_formed_resource rs = true ->
  exists m, dict_comprehension rs [] = Ok m
            /\ dict_keys m = map PStr (first_occurrences (resource_names rs)).
Proof.
  induction rs as [| r rs IH] using rev_ind; intros Hwf.
  - exists []. split; reflexivity.
  - rewrite forallb_app in Hwf. apply andb_prop in Hwf.
    destruct Hwf as [Hrs Hr]. simpl in Hr. rewrite andb_true_r in Hr.
    destruct (IH Hrs) as (m & Hm & Hkeys).
    destruct (well_formed_resource_fields r Hr) as (name & u & Hn & Hu).
    exists (dict_set (PStr name) (PStr u) m). split.
    + rewrite comprehension_snoc, Hm.
      apply lookup_entry_well_formed; assumption.
    + rewrite (dict_keys_set_listed name (PStr u) m _ Hkeys).
      unfold resource_names. rewrite flat_map_app. simpl. rewrite Hn.
      rewrite app_nil_r. fold (resource_names rs).
      rewrite first_occurrences_snoc. reflexivity.
Qed.

(** X10: on a well-formed document the mapping lists the resource names
    in the order of their first occurrence in the document, a repeated
    name staying where it first stood; so the mapping has at most as many
    entries as the document has descriptors.  (This is the order in
    which the script downloads.) *)
Theorem mapping_keeps_first_occurrence_order
    (network : nat -> Session -> GetCall -> result Response)
    (id_str : string) (key : option string) (ckan_url : string)
    (session : Session) (n : nat) (resp : Response) (body meta : pyval)
    (rs : list pyval) :
  network n session (package_show_call id_str key ckan_url) = Ok resp ->
  status_code resp = 200 ->
  json resp = Ok body ->
  py_getitem body "result" = Ok meta ->
  py_getitem meta RESOURCES_FIELD = Ok (PList rs) ->
  forallb well_formed_resource rs = true ->
  exists m : pydict,
    fst (_form_dataset_resources_lookup network id_str key ckan_url session n)
    = Ok m
    /\ dict_keys m = map PStr (first_occurrences (resource_names rs))
    /\ (List.length m <= List.length rs)%nat.
Proof.
  intros Hnet Hst Hjson Hres Hrs Hwf.
  rewrite (form_lookup_on_resources network id_str key ckan_url session n
             resp body meta rs Hnet Hst Hjson Hres Hrs).
  destruct (comprehension_keys_in_order rs Hwf) as (m & Hm & Hkeys).
  exists m. simpl fst. split; [exact Hm |]. split; [exact Hkeys |].
  assert (Hlen : List.length m = List.length (dict_keys m))
    by (unfold dict_keys; rewrite length_map; reflexivity).
  rewrite Hlen, Hkeys, length_map.
  pose proof (first_occurrences_length (resource_names rs)).
  pose proof (resource_names_length rs). lia.
Qed.

Lemma mapping_keeps_first_occurrence_order_witness :
  exists m : pydict,
    fst (_form_dataset_resources_lookup
           (serving (metadata_response (package_show_body sample_resources)))
           "billed-consumption-data" None COCT_CKAN_URL default_session 0%nat)
    = Ok m
    /\ dict_keys m = [PStr "a"; PStr "b-report"].
Proof.
  destruct (mapping_keeps_first_occurrence_order
              (serving (metadata_response (package_show_body sample_resources)))
              "billed-consumption-data" None COCT_CKAN_URL default_session
              0%nat (metadata_response (package_show_body sample_resources))
              (package_show_body sample_resources)
              (PDict [("id", PStr "d1");
                      ("name", PStr "billed-consumption-data");
                      ("resources", PList sample_resources)])
              sample_resources
              eq_refl eq_refl eq_refl eq_refl eq_refl eq_refl)
    as (m & Hm & Hkeys & _).
  exists m. split; [exact Hm | exact Hkeys].
Defined.

(** ** The filter, beyond the claims *)

(** X11: on a mapping whose names are all strings, filtering by a
    compiled pattern keeps exactly the entries whose name the pattern's
    [search] matches, in the mapping's order. *)
Theorem filter_keeps_exactly_the_matches
    (search : string -> bool) (items : list (pyval * pyval)) :
  forallb (fun item => is_PStr (fst item)) items = true ->
  filter_resources (Some search) items
  = Ok (filter (name_matches search) items).
Proof.
  induction items as [| [name u] items IH]; intros Hstr; [reflexivity |].
  simpl in Hstr. apply andb_prop in Hstr. destruct Hstr as [Hname Hrest].
  destruct name; try discriminate Hname.
  simpl. rewrite (IH Hrest).
  change (name_matches search (PStr s, u)) with (search s).
  destruct (search s); reflexivity.
Qed.

Lemma filter_keeps_exactly_the_matches_witness :
  filter_resources (Some (re_search (Anywhere "report"))) sample_mapping
  = Ok [(PStr "b-report", PStr "http://x/b.csv")].
Proof.
  rewrite (filter_keeps_exactly_the_matches (re_search (Anywhere "report"))
             sample_mapping eq_refl).
  reflexivity.
Defined.

(** X12: with a pattern, a single name that is not a string (a JSON
    number, say) makes the whole filtering raise [TypeError], wherever it
    stands in the mapping; without a pattern the same mapping passes
    unchanged. *)
Theorem filter_rejects_non_string_names
    (search : string -> bool) (items : list (pyval * pyval))
    (name u : pyval) :
  In (name, u) items ->
  is_PStr name = false ->
  filter_resources (Some search) items = Raise TypeError
  /\ filter_resources None items = Ok items.
Proof.
  intros Hin Hname. split; [| apply filter_resources_none].
  induction items as [| [name0 u0] items IH]; [destruct Hin |].
  destruct Hin as [Heq | Hin].
  - injection Heq as -> ->. simpl. destruct name; try reflexivity.
    discriminate Hname.
  - simpl. rewrite (IH Hin). destruct name0; reflexivity.
Qed.

Lemma filter_rejects_non_string_names_witness :
  filter_resources (Some (re_search (AtStart "a")))
    [(PStr "a", PStr "http://x/a.csv"); (PInt 7, PStr "http://x/7.csv")]
  = Raise TypeError.
Proof.
  apply (filter_rejects_non_string_names (re_search (AtStart "a"))
           [(PStr "a", PStr "http://x/a.csv"); (PInt 7, PStr "http://x/7.csv")]
           (PInt 7) (PStr "http://x/7.csv")).
  - right. left. reflexivity.
  - reflexivity.
Defined.

(** ** The orchestration, beyond the claims *)

Lemma writes_app t1 t2 : writes (t1 ++ t2) = (writes t1 ++ writes t2)%list.
Proof. apply flat_map_app. Qed.

Lemma gets_log level msg t : gets (EvLog level msg :: t) = gets t.
Proof. reflexivity. Qed.

Lemma writes_log level msg t : writes (EvLog level msg :: t) = writes t.
Proof. reflexivity. Qed.

(** X13: when the destination directory does not exist the run fails on
    its assertion before the dataset is looked up: no request is made and
    no file is written. *)
Theorem missing_destination_stops_before_any_request
    (network : nat -> Session -> GetCall -> result Response)
    (re_compile : string -> result (string -> bool))
    (path_exists : string -> bool)
    (url_filename : pyval -> result string)
    (open_wb : string -> string -> result unit)
    (args : Args) (s : Session) (n : nat) :
  path_exists (destination_dir args) = false ->
  main network re_compile path_exists url_filename open_wb args s n
  = (Raise AssertionError, []).
Proof.
  intros Hp. unfold main, bind at 1. rewrite Hp. reflexivity.
Qed.

Lemma missing_destination_stops_before_any_request_witness :
  main (serving file_response) literal_re_compile (fun _ => false)
    sample_url_filename (fun _ _ => Ok tt) sample_args default_session 0%nat
  = (Raise AssertionError, []).
Proof.
  apply (missing_destination_stops_before_any_request (serving file_response)
           literal_re_compile (fun _ => false) sample_url_filename
           (fun _ _ => Ok tt) sample_args default_session 0%nat).
  reflexivity.
Defined.

(** X14: a pattern [re.compile] rejects fails the run after the mapping
    is resolved and before any download: the error is the compiler's, the
    requests are those of the resolution, and no file is written.  The
    empty pattern is never compiled. *)
Theorem invalid_pattern_stops_before_any_download
    (network : nat -> Session -> GetCall -> result Response)
    (re_compile : string -> result (string -> bool))
    (path_exists : string -> bool)
    (url_filename : pyval -> result string)
    (open_wb : string -> string -> result unit)
    (args : Args) (s : Session) (n : nat) (m : pydict) (t0 : list event)
    (p : string) (e : exn) :
  path_exists (destination_dir args) = true ->
  _form_dataset_resources_lookup network (dataset_id args) (ckan_api_key args)
    (ckan_url args) s n = (Ok m, t0) ->
  writes t0 = [] ->
  resource_name_regex args = Some p ->
  p <> "" ->
  re_compile p = Raise e ->
  let run := main network re_compile path_exists url_filename open_wb args s n in
  fst run = Raise e
  /\ gets (snd run) = gets t0
  /\ writes (snd run) = [].
Proof.
  intros Hp Hform Hw Hre Hne Hc run. subst run.
  rewrite (main_after_resolution network re_compile path_exists url_filename
             open_wb args s n m t0 Hp Hform).
  cbv zeta. unfold assemble_resource_list, compile_filter. rewrite Hre.
  destruct p as [| c p]; [congruence |]. rewrite Hc.
  cbn [fst snd]. split; [reflexivity |].
  rewrite gets_log, writes_log, gets_app, writes_app, Hw.
  split; [apply app_nil_r | reflexivity].
Qed.

Lemma invalid_pattern_stops_before_any_download_witness :
  let run := main (catalogue (metadata_response (package_show_body sample_resources))
                     sample_file_of)
               literal_re_compile (fun _ => true) sample_url_filename
               (fun _ _ => Ok tt)
               {| dataset_id := "billed-consumption-data";
                  ckan_api_key := None;
                  ckan_url := COCT_CKAN_URL;
                  resource_name_regex := Some "(";
                  destination_dir := ".";
                  verbose := false;
                  no_progress_bar := true |}
               default_session 0%nat in
  fst run = Raise ValueError /\ List.length (gets (snd run)) = 1%nat.
Proof.
  pose proof
    (invalid_pattern_stops_before_any_download
       (catalogue (metadata_response (package_show_body sample_resources))
          sample_file_of)
       literal_re_compile (fun _ => true) sample_url_filename
       (fun _ _ => Ok tt)
       {| dataset_id := "billed-consumption-data";
          ckan_api_key := None;
          ckan_url := COCT_CKAN_URL;
          resource_name_regex := Some "(";
          destination_dir := ".";
          verbose := false;
          no_progress_bar := true |}
       default_session 0%nat _ _ "(" ValueError
       eq_refl eq_refl eq_refl eq_refl) as H.
  destruct H as (H1 & H2 & _).
  - discriminate.
  - reflexivity.
  - split; [exact H1 |]. rewrite H2. reflexivity.
Defined.

Lemma gets_downloaded s key dir fname serve l :
  gets (flat_map (downloaded s key dir fname serve) l)
  = map (fun item => (s, resource_call (snd item) key)) l.
Proof.
  induction l as [| item l IH]; [reflexivity |].
  simpl. f_equal. exact IH.
Qed.

Lemma writes_downloaded s key dir fname serve l :
  writes (flat_map (downloaded s key dir fname serve) l)
  = map (fun item => (fname (snd item), content (serve (snd item)))) l.
Proof.
  induction l as [| item l IH]; [reflexivity |].
  simpl. f_equal. exact IH.
Qed.

Lemma sleeps_downloaded s key dir fname serve l :
  sleeps (flat_map (downloaded s key dir fname serve) l) = [].
Proof.
  induction l as [| item l IH]; [reflexivity | exact IH].
Qed.

Section Downloads.

Variable network : nat -> Session -> GetCall -> result Response.
Variable url_filename : pyval -> result string.
Variable open_wb : string -> string -> result unit.
Variable args : Args.
Variable s : Session.
Variable fname : pyval -> string.
Variable serve : pyval -> Response.

Let download := download_all network url_filename open_wb args s.
Let well := downloads_well network url_filename open_wb args s fname serve.
Let done := downloaded s (ckan_api_key args) (destination_dir args) fname serve.

(** Resources that download well are gone through one request each; the
    loop then goes on with what follows them. *)
Lemma download_all_prefix pre : forall rest n,
  Forall well pre ->
  download (pre ++ rest) n
  = (fst (download rest (n + List.length pre)%nat),
     (flat_map done pre ++ snd (download rest (n + List.length pre)%nat))%list).
Proof.
  induction pre as [| [name url] pre IH]; intros rest n Hpre.
  - simpl. rewrite Nat.add_0_r. destruct (download rest n). reflexivity.
  - inversion Hpre as [| ? ? (Hf & Ho & Hst & Hnet) Hpre']; subst.
    simpl in Hf, Ho, Hst, Hnet.
    unfold download. simpl app. rewrite download_all_cons, Hf.
    rewrite (fetch_first_attempt_ok network s url (ckan_api_key args) n
               (serve url) (Hnet n)).
    rewrite Hst, Ho. cbv iota beta. simpl Z.eqb. cbv iota.
    fold download. simpl List.length.
    rewrite (IH rest (n + 1)%nat Hpre').
    replace (n + 1 + List.length pre)%nat with (n + S (List.length pre))%nat
      by lia.
    reflexivity.
Qed.



(** X16: a download that completes with a status other than 200 fails
    the run on its assertion: the resources before it are written, its
    own response is not, and the resources after it are never
    requested. *)
Theorem bad_status_aborts_the_queue pre name url post n filename resp :
  Forall well pre ->
  url_filename url = Ok filename ->
  (forall i, network i s (resource_call url (ckan_api_key args)) = Ok resp) ->
  status_code resp <> 200 ->
  let run := download (pre ++ (name, url) :: post) n in
  fst run = Raise AssertionError
  /\ snd run = (flat_map done pre
                ++ [EvGet s (resource_call url (ckan_api_key args))])%list
  /\ List.length (gets (snd run)) = S (List.length pre)
  /\ List.length (writes (snd run)) = List.length pre.
Proof.
  intros Hpre Hf Hnet Hst run. subst run.
  rewrite (download_all_prefix pre ((name, url) :: post) n Hpre).
  unfold download. rewrite download_all_cons, Hf.
  rewrite (fetch_first_attempt_ok network s url (ckan_api_key args) _ resp
             (Hnet _)).
  destruct (Z.eqb_spec (status_code resp) 200) as [E | _]; [contradiction |].
  cbn [fst snd]. split; [reflexivity |]. split; [reflexivity |].
  unfold done.
  rewrite gets_app, writes_app, !length_app, gets_downloaded,
    writes_downloaded, !length_map.
  simpl. lia.
Qed.

(** X17: a resource whose three attempts all raise fails the run with
    the error of its last attempt, after the sleeps of 10, 20 and 30
    seconds: the resources before it are written, those after it are
    never requested. *)
Theorem exhausted_fetch_aborts_the_queue pre name url post n filename
    (errs : nat -> exn) :
  Forall well pre ->
  url_filename url = Ok filename ->
  (forall i, (i < 3)%nat ->
     network (n + List.length pre + i)%nat s
       (resource_call url (ckan_api_key args)) = Raise (errs i)
     /\ derives_from_Exception (errs i) = true) ->
  let run := download (pre ++ (name, url) :: post) n in
  fst run = Raise (errs 2%nat)
  /\ snd run = (flat_map done pre
                ++ flat_map (failed_attempt RETRY_DELAY_FACTOR s url
                               (ckan_api_key args)) [0; 1; 2])%list
  /\ sleeps (snd run) = [10; 20; 30]
  /\ List.length (gets (snd run)) = (List.length pre + 3)%nat
  /\ List.length (writes (snd run)) = List.length pre.
Proof.
  intros Hpre Hf Hnet run. subst run.
  rewrite (download_all_prefix pre ((name, url) :: post) n Hpre).
  unfold download. rewrite download_all_cons, Hf.
  rewrite (fetch_three_attempts_raise network s url (ckan_api_key args) _
             errs Hnet).
  cbn [fst snd]. split; [reflexivity |]. split; [reflexivity |].
  unfold done.
  rewrite sleeps_app, gets_app, writes_app, !length_app, sleeps_downloaded,
    gets_downloaded, writes_downloaded, !length_map.
  split; [reflexivity |]. simpl. lia.
Qed.

(** X18: the file name is derived before the fetch: a resource whose URL
    yields no file name (a URL that is not a string, say) fails the run
    with that error without being requested. *)
Theorem underivable_file_name_prevents_the_request pre name url post n e :
  Forall well pre ->
  url_filename url = Raise e ->
  let run := download (pre ++ (name, url) :: post) n in
  fst run = Raise e
  /\ snd run = flat_map done pre
  /\ ~ In (s, resource_call url (ckan_api_key args))
         (skipn (List.length pre) (gets (snd run))).
Proof.
  intros Hpre Hf run. subst run.
  rewrite (download_all_prefix pre ((name, url) :: post) n Hpre).
  unfold download. rewrite download_all_cons, Hf.
  cbn [fst snd]. rewrite app_nil_r.
  split; [reflexivity |]. split; [reflexivity |].
  unfold done. rewrite gets_downloaded.
  rewrite <- (length_map (fun item : pyval * pyval =>
                            (s, resource_call (snd item) (ckan_api_key args)))
                pre) at 1.
  rewrite skipn_all. intros [].
Qed.

End Downloads.

Lemma sample_queue_downloads_well :
  Forall (downloads_well sample_catalogue sample_url_filename sample_open
            sample_args default_session sample_fname sample_serve)
    sample_queue.
Proof.
  repeat (constructor; [repeat split; intros; reflexivity |]). constructor.
Defined.


Lemma bad_status_aborts_the_queue_witness :
  let run := download_all sample_catalogue sample_url_filename sample_open
               sample_args default_session
               (sample_queue
                ++ (PStr "broken", PStr "http://x/broken.csv")
                   :: [(PStr "late", PStr "http://x/late.csv")])
               0%nat in
  fst run = Raise AssertionError
  /\ List.length (gets (snd run)) = 3%nat
  /\ List.length (writes (snd run)) = 2%nat.
Proof.
  destruct (bad_status_aborts_the_queue sample_catalogue sample_url_filename
              sample_open sample_args default_session sample_fname
              sample_serve sample_queue (PStr "broken")
              (PStr "http://x/broken.csv")
              [(PStr "late", PStr "http://x/late.csv")] 0%nat "broken.csv"
              server_error_response sample_queue_downloads_well eq_refl
              (fun _ => eq_refl)) as (H1 & _ & H2 & H3).
  - discriminate.
  - split; [exact H1 |]. split; [exact H2 | exact H3].
Defined.

Lemma exhausted_fetch_aborts_the_queue_witness :
  let run := download_all sample_catalogue sample_url_filename sample_open
               sample_args default_session
               (sample_queue
                ++ (PStr "down", PStr "http://x/down.csv")
                   :: [(PStr "late", PStr "http://x/late.csv")])
               0%nat in
  fst run = Raise (RequestException "connection refused")
  /\ sleeps (snd run) = [10; 20; 30]
  /\ List.length (gets (snd run)) = 5%nat
  /\ List.length (writes (snd run)) = 2%nat.
Proof.
  destruct (exhausted_fetch_aborts_the_queue sample_catalogue
              sample_url_filename sample_open sample_args default_session
              sample_fname sample_serve sample_queue (PStr "down")
              (PStr "http://x/down.csv")
              [(PStr "late", PStr "http://x/late.csv")] 0%nat "down.csv"
              (fun _ => RequestException "connection refused")
              sample_queue_downloads_well eq_refl
              (fun _ _ => conj eq_refl eq_refl)) as (H1 & _ & H2 & H3 & H4).
  split; [exact H1 |]. split; [exact H2 |]. split; [exact H3 | exact H4].
Defined.

Lemma underivable_file_name_prevents_the_request_witness :
  download_all sample_catalogue sample_url_filename sample_open sample_args
    default_session [(PStr "n", PInt 5); (PStr "a", PStr "http://x/a.csv")]
    0%nat
  = (Raise TypeError, []).
Proof.
  destruct (underivable_file_name_prevents_the_request sample_catalogue
              sample_url_filename sample_open sample_args default_session
              sample_fname sample_serve [] (PStr "n") (PInt 5)
              [(PStr "a", PStr "http://x/a.csv")] 0%nat TypeError
              (Forall_nil _) eq_refl) as (H1 & H2 & _).
  apply injective_projections; [exact H1 | exact H2].
Defined.


